(** * The conference workflow server of App.tsx, embedded in Rocq

    The server part of [src/App.tsx] is an Express application over a
    better-sqlite3 database with six tables.  This development models
    the database as a record of row lists, every route as a function
    from the database and the request to the new database and the HTTP
    response, and proves properties of the submission and document
    workflow over these functions.

    Conventions of the embedding.
    - A table is the list of its rows in insertion order.
    - A column of INTEGER affinity holds a [value]; a column of TEXT
      affinity holds a [text].  Request fields are given as the SQL
      value that SQLite stores or compares once the parameter is bound
      and the column affinity applied (numeric text bound against an
      INTEGER column is the integer it denotes; [undefined] and [null]
      bind as NULL).  A JSON boolean, object or array, which the
      driver refuses to bind (the statement throws), is no [value] and
      no [text]: the results speak of requests whose fields bind.
    - [jwt.verify], [bcrypt] and [multer] are outside the model: a
      bearer header is given by what [jwt.verify] makes of it, the two
      bcrypt functions are section variables, and an uploaded file is
      the file name multer stored it under.
    - Whether the database enforces the FOREIGN KEY clauses of the
      schema is a property of the SQLite build; it is the section
      variable [foreign_keys], and every result holds for both
      settings. *)

From Stdlib Require Import ZArith List String Bool Lia.
From Stdlib Require Import Permutation Sorted.
Import ListNotations.

Open Scope string_scope.
Open Scope list_scope.
Open Scope Z_scope.

(** ** SQL values *)

Module Sql.

(** What a column of INTEGER affinity can hold: NULL, an integer, or
    text that does not read as a number. *)
Inductive value : Type :=
| VNull
| VInt (z : Z)
| VText (s : string).

(** What a column of TEXT affinity can hold: NULL ([None]) or text. *)
Definition text : Type := option string.

(** The SQL comparison [a = b] used as a condition: a comparison with
    NULL is not true. *)
Definition eq (a b : value) : bool :=
  match a, b with
  | VInt x, VInt y => x =? y
  | VText s, VText t => String.eqb s t
  | _, _ => false
  end.

Definition text_eq (a b : text) : bool :=
  match a, b with
  | Some s, Some t => String.eqb s t
  | _, _ => false
  end.

(** AUTOINCREMENT on a table that is never deleted from: one more
    than the largest key, 1 for the empty table. *)
Definition next_id (ids : list Z) : Z := 1 + fold_right Z.max 0 ids.

(** [GROUP_CONCAT(x, sep)]: NULL inputs are skipped, and the result
    is NULL when no input is left. *)
Definition group_concat (sep : string) (xs : list text) : text :=
  match flat_map (fun x => match x with Some s => [s] | None => [] end) xs with
  | [] => None
  | ss => Some (String.concat sep ss)
  end.

(** The order of [ORDER BY col ASC] on a TEXT column: NULL first,
    then text by its bytes. *)
Definition text_leb (a b : text) : bool :=
  match a, b with
  | None, _ => true
  | Some _, None => false
  | Some s, Some t => String.leb s t
  end.

Fixpoint insert_by {A : Type} (key : A -> text) (x : A) (l : list A) : list A :=
  match l with
  | [] => [x]
  | y :: l' => if text_leb (key y) (key x) then y :: insert_by key x l'
               else x :: l
  end.

Definition order_by {A : Type} (key : A -> text) (l : list A) : list A :=
  fold_left (fun acc x => insert_by key x acc) l [].

End Sql.

Abbreviation value := Sql.value.
Abbreviation text := Sql.text.
Abbreviation VNull := Sql.VNull.
Abbreviation VInt := Sql.VInt.
Abbreviation VText := Sql.VText.

(** ** JSON documents and HTTP responses *)

#[local] Set Warnings "-register-all".

Inductive json : Type :=
| JNull
| JNum (z : Z)
| JStr (s : string)
| JBool (b : bool)
| JArr (items : list json)
| JObj (fields : list (string * json)).

Definition json_of_value (v : value) : json :=
  match v with
  | VNull => JNull
  | VInt z => JNum z
  | VText s => JStr s
  end.

Definition json_of_text (t : text) : json :=
  match t with
  | None => JNull
  | Some s => JStr s
  end.

(** [o[k]] on a JSON object; [None] when [o] has no such field or is
    not an object. *)
Fixpoint assoc (k : string) (fields : list (string * json)) : option json :=
  match fields with
  | [] => None
  | (k', v) :: rest => if String.eqb k k' then Some v else assoc k rest
  end.

Definition field (k : string) (o : json) : option json :=
  match o with
  | JObj fields => assoc k fields
  | _ => None
  end.

(** Whether [j] has a field named [k] at any depth. *)
Fixpoint has_key (k : string) (j : json) : bool :=
  match j with
  | JArr items => existsb (has_key k) items
  | JObj fields =>
      existsb (fun kv : string * json =>
                 let (k', v) := kv in String.eqb k k' || has_key k v)
              fields
  | _ => false
  end.

(** A response: the status code and the JSON body.  [res.json(undefined)]
    and the error page of an uncaught exception carry no JSON body. *)
Record response : Type := mkResponse {
  code : Z;
  body : option json
}.

(** [res.json(x)] *)
Definition res_json (x : json) : response := mkResponse 200 (Some x).

(** [res.status(c).json({ error: msg })] *)
Definition res_error (c : Z) (msg : string) : response :=
  mkResponse c (Some (JObj [("error", JStr msg)])).

(** [res.json({ success: true })] *)
Definition res_success : response := res_json (JObj [("success", JBool true)]).

(** [res.json({ id: result.lastInsertRowid })] *)
Definition res_id (id : Z) : response := res_json (JObj [("id", JNum id)]).

(** An exception that no handler catches: Express answers 500. *)
Definition res_uncaught : response := mkResponse 500 None.

(** Whether the body of [r] has a field named [k] at any depth. *)
Definition exposes (k : string) (r : response) : bool :=
  match body r with
  | Some j => has_key k j
  | None => false
  end.

(** The error kinds of the specification, as the responses the server
    uses for them: 403 is Forbidden, 404 NotFound, and the 400 of a
    uniqueness violation Conflict.  The server has no
    response for a rejected status value; a validation error would be a
    4xx answer, which [is_failure] covers. *)
Definition is_failure (r : response) : bool := 400 <=? code r.
Definition is_forbidden (r : response) : bool := code r =? 403.
Definition is_not_found (r : response) : bool := code r =? 404.
Definition is_conflict (r : response) : bool := code r =? 400.

(** ** The schema

    One module per table of the [CREATE TABLE] script, with the columns
    in their order; [json] is the object [SELECT *] yields for a row. *)

Module Users.
Record row : Type := mk {
  id : Z;
  email : text;
  password : text;
  name : text;
  role : text;
  affiliation : text;
  bio : text;
  profile_picture : text
}.
End Users.

Module Conferences.
Record row : Type := mk {
  id : Z;
  title : text;
  description : text;
  date : text;
  location : text;
  status : text
}.
Definition json (c : row) : json :=
  JObj [("id", JNum (id c)); ("title", json_of_text (title c));
        ("description", json_of_text (description c));
        ("date", json_of_text (date c));
        ("location", json_of_text (location c));
        ("status", json_of_text (status c))].
End Conferences.

Module Submissions.
Record row : Type := mk {
  id : Z;
  conference_id : value;
  user_id : value;
  title : text;
  abstract : text;
  file_path : text;
  status : text
}.
Definition columns (s : row) : list (string * json) :=
  [("id", JNum (id s)); ("conference_id", json_of_value (conference_id s));
   ("user_id", json_of_value (user_id s)); ("title", json_of_text (title s));
   ("abstract", json_of_text (abstract s));
   ("file_path", json_of_text (file_path s));
   ("status", json_of_text (status s))].
Definition set_status (v : text) (s : row) : row :=
  mk (id s) (conference_id s) (user_id s) (title s) (abstract s) (file_path s) v.
End Submissions.

Module Reviews.
Record row : Type := mk {
  id : Z;
  submission_id : value;
  reviewer_id : value;
  comments : text;
  score : value
}.
Definition columns (r : row) : list (string * json) :=
  [("id", JNum (id r)); ("submission_id", json_of_value (submission_id r));
   ("reviewer_id", json_of_value (reviewer_id r));
   ("comments", json_of_text (comments r));
   ("score", json_of_value (score r))].
End Reviews.

Module Schedule.
Record row : Type := mk {
  id : Z;
  conference_id : value;
  title : text;
  start_time : text;
  end_time : text;
  room : text
}.
Definition json (s : row) : json :=
  JObj [("id", JNum (id s)); ("conference_id", json_of_value (conference_id s));
        ("title", json_of_text (title s));
        ("start_time", json_of_text (start_time s));
        ("end_time", json_of_text (end_time s));
        ("room", json_of_text (room s))].
End Schedule.

Module Documents.
Record row : Type := mk {
  id : Z;
  user_id : value;
  title : text;
  file_path : text;
  status : text;
  type : text;
  accepted : value
}.
Definition columns (d : row) : list (string * json) :=
  [("id", JNum (id d)); ("user_id", json_of_value (user_id d));
   ("title", json_of_text (title d));
   ("file_path", json_of_text (file_path d));
   ("status", json_of_text (status d)); ("type", json_of_text (type d));
   ("accepted", json_of_value (accepted d))].
Definition set_status (v : text) (d : row) : row :=
  mk (id d) (user_id d) (title d) (file_path d) v (type d) (accepted d).
Definition set_accepted (v : value) (d : row) : row :=
  mk (id d) (user_id d) (title d) (file_path d) (status d) (type d) v.
End Documents.

(** The database [conference.db]. *)
Record database : Type := mkDatabase {
  users : list Users.row;
  conferences : list Conferences.row;
  submissions : list Submissions.row;
  reviews : list Reviews.row;
  schedule : list Schedule.row;
  documents : list Documents.row
}.

Definition empty : database := mkDatabase [] [] [] [] [] [].

Definition with_users (db : database) (t : list Users.row) : database :=
  mkDatabase t (conferences db) (submissions db) (reviews db) (schedule db)
             (documents db).
Definition with_conferences (db : database) (t : list Conferences.row) : database :=
  mkDatabase (users db) t (submissions db) (reviews db) (schedule db)
             (documents db).
Definition with_submissions (db : database) (t : list Submissions.row) : database :=
  mkDatabase (users db) (conferences db) t (reviews db) (schedule db)
             (documents db).
Definition with_reviews (db : database) (t : list Reviews.row) : database :=
  mkDatabase (users db) (conferences db) (submissions db) t (schedule db)
             (documents db).
Definition with_schedule (db : database) (t : list Schedule.row) : database :=
  mkDatabase (users db) (conferences db) (submissions db) (reviews db) t
             (documents db).
Definition with_documents (db : database) (t : list Documents.row) : database :=
  mkDatabase (users db) (conferences db) (submissions db) (reviews db)
             (schedule db) t.

(** [SELECT id, email, name, role, affiliation, bio, profile_picture
    FROM users]: the columns the three profile queries name. *)
Definition select_profile (u : Users.row) : json :=
  JObj [("id", JNum (Users.id u)); ("email", json_of_text (Users.email u));
        ("name", json_of_text (Users.name u));
        ("role", json_of_text (Users.role u));
        ("affiliation", json_of_text (Users.affiliation u));
        ("bio", json_of_text (Users.bio u));
        ("profile_picture", json_of_text (Users.profile_picture u))].

(** ** Credentials and middleware *)

(** The payload [jwt.sign] puts in a token: [{ id, email, role, name }]. *)
Record claims : Type := mkClaims {
  id : Z;
  email : text;
  role : text;
  name : text
}.

(** The Authorization header, by what the [authenticate] middleware
    makes of it: no token, a token [jwt.verify] throws on, or a token
    it decodes to its payload. *)
Inductive bearer : Type :=
| NoToken
| InvalidToken
| Token (user : claims).

(** A middleware either answers the request or calls [next()]. *)
Definition middleware (A : Type) : Type := (response + A)%type.

Definition next {A : Type} (x : A) : middleware A := inr x.
Definition respond {A : Type} (r : response) : middleware A := inl r.

Definition bind {A B : Type} (m : middleware A) (k : A -> middleware B)
  : middleware B :=
  match m with
  | inl r => inl r
  | inr x => k x
  end.

Notation "x <- m ;; k" := (bind m (fun x => k))
  (at level 61, m at next level, right associativity).

Definition authenticate (auth : bearer) : middleware claims :=
  match auth with
  | NoToken => respond (res_error 401 "Unauthorized")
  | InvalidToken => respond (res_error 401 "Invalid token")
  | Token user => next user
  end.

(** [req.user.role === 'admin'] *)
Definition is_admin_role (user : claims) : bool :=
  match role user with
  | Some r => String.eqb r "admin"
  | None => false
  end.

Definition isAdmin (user : claims) : middleware unit :=
  if negb (is_admin_role user) then respond (res_error 403 "Forbidden")
  else next tt.

(** A route runs its middleware chain on the database; when a
    middleware answers, the database is as it was. *)
Definition route (db : database) (m : middleware (database * response))
  : database * response :=
  match m with
  | inl r => (db, r)
  | inr out => out
  end.

(** ** The server *)

Section Server.

(** Whether SQLite enforces the FOREIGN KEY clauses. *)
Variable foreign_keys : bool.

(** [bcrypt.hashSync(s, 10)] and [bcrypt.compareSync(s, hash)] on
    strings; on anything else both throw. *)
Variable hashSync : string -> string.
Variable compareSync : string -> string -> bool.

(** [jwt.sign(payload, JWT_SECRET)].  A token stands for its payload:
    the issued-at stamp that [jwt.sign] adds is outside the model, and
    no result compares the tokens of two calls. *)
Variable sign : claims -> string.

(** *** Statements *)

(** A child key passes its FOREIGN KEY clause when it is NULL or equal
    to a key of the parent table. *)
Definition references (keys : list Z) (v : value) : bool :=
  if foreign_keys then
    match v with
    | VNull => true
    | VInt z => existsb (Z.eqb z) keys
    | VText _ => false
    end
  else true.

(** [INSERT INTO users (email, password, name, role, affiliation, bio)]:
    fails on an email some row already has; yields [lastInsertRowid]. *)
Definition insert_user (db : database)
    (email password name role affiliation bio : text)
  : option (database * Z) :=
  if existsb (fun u => Sql.text_eq (Users.email u) email) (users db) then None
  else
    let k := Sql.next_id (map Users.id (users db)) in
    Some (with_users db
            (users db ++ [Users.mk k email password name role affiliation bio None]),
          k).

(** [INSERT INTO conferences (title, description, date, location)] *)
Definition insert_conference (db : database)
    (title description date location : text) : database * Z :=
  let k := Sql.next_id (map Conferences.id (conferences db)) in
  (with_conferences db
     (conferences db
      ++ [Conferences.mk k title description date location (Some "upcoming")]),
   k).

(** [INSERT INTO submissions (conference_id, user_id, title, abstract,
    file_path)] *)
Definition insert_submission (db : database) (conference_id user_id : value)
    (title abstract file_path : text) : option (database * Z) :=
  if references (map Conferences.id (conferences db)) conference_id
     && references (map Users.id (users db)) user_id
  then
    let k := Sql.next_id (map Submissions.id (submissions db)) in
    Some (with_submissions db
            (submissions db
             ++ [Submissions.mk k conference_id user_id title abstract file_path
                                (Some "pending")]),
          k)
  else None.

(** [INSERT INTO reviews (submission_id, reviewer_id, comments, score)];
    the assignment names the first two columns only and leaves the
    others NULL. *)
Definition insert_review (db : database) (submission_id reviewer_id : value)
    (comments : text) (score : value) : option (database * Z) :=
  if references (map Submissions.id (submissions db)) submission_id
     && references (map Users.id (users db)) reviewer_id
  then
    let k := Sql.next_id (map Reviews.id (reviews db)) in
    Some (with_reviews db
            (reviews db ++ [Reviews.mk k submission_id reviewer_id comments score]),
          k)
  else None.

(** [INSERT INTO schedule (conference_id, title, start_time, end_time,
    room)] *)
Definition insert_schedule (db : database) (conference_id : value)
    (title start_time end_time room : text) : option (database * Z) :=
  if references (map Conferences.id (conferences db)) conference_id then
    let k := Sql.next_id (map Schedule.id (schedule db)) in
    Some (with_schedule db
            (schedule db
             ++ [Schedule.mk k conference_id title start_time end_time room]),
          k)
  else None.

(** [INSERT INTO documents (user_id, title, file_path, type)] *)
Definition insert_document (db : database) (user_id : value)
    (title file_path type : text) : option (database * Z) :=
  if references (map Users.id (users db)) user_id then
    let k := Sql.next_id (map Documents.id (documents db)) in
    Some (with_documents db
            (documents db
             ++ [Documents.mk k user_id title file_path (Some "pending") type
                              (VInt 0)]),
          k)
  else None.

(** An INSERT that throws outside any [try] ends the request with the
    database as it was. *)
Definition run (db : database) (ins : option (database * Z))
    (reply : Z -> response) : database * response :=
  match ins with
  | Some (db', k) => (db', reply k)
  | None => (db, res_uncaught)
  end.

(** [WHERE id = ?] against the INTEGER PRIMARY KEY. *)
Definition key_is (k : Z) (v : value) : bool := Sql.eq (VInt k) v.

(** [UPDATE submissions SET status = ? WHERE id = ?],
    [UPDATE documents SET status = ? WHERE id = ?] and
    [UPDATE documents SET accepted = 1 WHERE id = ? AND user_id = ?],
    by what they do to a row. *)
Definition status_update (k : value) (st : text) (s : Submissions.row)
  : Submissions.row :=
  if key_is (Submissions.id s) k then Submissions.set_status st s else s.

Definition verify_update (k : value) (st : text) (d : Documents.row)
  : Documents.row :=
  if key_is (Documents.id d) k then Documents.set_status st d else d.

Definition accept_update (k : value) (owner : Z) (d : Documents.row)
  : Documents.row :=
  if key_is (Documents.id d) k && Sql.eq (Documents.user_id d) (VInt owner)
  then Documents.set_accepted (VInt 1) d else d.

(** *** Start-up: the seed block *)

Definition and_then {A : Type} (m : option (database * A))
    (k : database -> option (database * Z)) : option (database * Z) :=
  match m with
  | Some (db, _) => k db
  | None => None
  end.

Definition seed (db : database) : option (database * Z) :=
  let userPassword := Some (hashSync "user123") in
  and_then (insert_user db (Some "admin@confmaster.com")
              (Some (hashSync "admin123")) (Some "System Admin") (Some "admin")
              None None) (fun db =>
  and_then (insert_user db (Some "user@example.com") userPassword
              (Some "John Doe") (Some "user") (Some "Stanford University")
              (Some "PhD student focusing on Natural Language Processing and Large Language Models."))
           (fun db =>
  and_then (insert_user db (Some "researcher@uni.edu") userPassword
              (Some "Dr. Sarah Smith") (Some "user") (Some "MIT Media Lab")
              (Some "Senior researcher in Human-Computer Interaction and ubiquitous computing."))
           (fun db =>
  and_then (insert_user db (Some "reviewer@science.org") userPassword
              (Some "Prof. Alan Turing") (Some "admin")
              (Some "University of Cambridge")
              (Some "Expert in computational theory and artificial intelligence."))
           (fun db =>
  and_then (Some (insert_conference db (Some "International AI Conference 2026")
              (Some "A premier conference on Artificial Intelligence and Machine Learning.")
              (Some "2026-06-15") (Some "San Francisco, CA"))) (fun db =>
  and_then (Some (insert_conference db (Some "Global Sustainability Summit")
              (Some "Focusing on renewable energy and green technologies.")
              (Some "2026-09-20") (Some "Berlin, Germany"))) (fun db =>
  let confId := VInt 1 in
  and_then (insert_schedule db confId
              (Some "Opening Keynote: The Future of AGI") (Some "09:00")
              (Some "10:30") (Some "Grand Ballroom")) (fun db =>
  insert_schedule db confId (Some "Neural Architecture Search Workshop")
    (Some "11:00") (Some "12:30") (Some "Room 302")))))))).

(** The database after start-up: seeded unless it has an admin. *)
Definition startup (db : database) : option database :=
  if existsb (fun u => Sql.text_eq (Users.role u) (Some "admin")) (users db)
  then Some db
  else match seed db with
       | Some (db', _) => Some db'
       | None => None
       end.

(** The first start, on a fresh [conference.db]. *)
Definition initial : database :=
  match startup empty with
  | Some db => db
  | None => empty
  end.

(** The payloads of the tokens that login issues to three of the
    seeded users: the admin (id 1) and the two plain users (ids 2
    and 3). *)
Definition seed_admin : claims :=
  mkClaims 1 (Some "admin@confmaster.com") (Some "admin") (Some "System Admin").

Definition seed_user : claims :=
  mkClaims 2 (Some "user@example.com") (Some "user") (Some "John Doe").

Definition seed_researcher : claims :=
  mkClaims 3 (Some "researcher@uni.edu") (Some "user") (Some "Dr. Sarah Smith").

(** *** Routes

    Each route takes the database and what the handler reads of the
    request, and gives the database and the response after it. *)

(** GET /api/auth/me *)
Definition get_auth_me (db : database) (auth : bearer) : database * response :=
  route db (
    user <- authenticate auth ;;
    next (db, match find (fun u => Users.id u =? id user) (users db) with
              | Some u => res_json (select_profile u)
              | None => mkResponse 200 None
              end)).

(** PATCH /api/profile *)
Definition patch_profile (db : database) (auth : bearer)
    (name affiliation bio : text) (file : option string)
  : database * response :=
  route db (
    user <- authenticate auth ;;
    let update (u : Users.row) :=
      if Users.id u =? id user then
        Users.mk (Users.id u) (Users.email u) (Users.password u) name
                 (Users.role u) affiliation bio
                 match file with
                 | Some profile_picture => Some profile_picture
                 | None => Users.profile_picture u
                 end
      else u in
    let db' := with_users db (map update (users db)) in
    next (db', match find (fun u => Users.id u =? id user) (users db') with
               | Some u => res_json (select_profile u)
               | None => mkResponse 200 None
               end)).

(** GET /api/users *)
Definition get_users (db : database) (auth : bearer) : database * response :=
  route db (
    user <- authenticate auth ;;
    _ <- isAdmin user ;;
    next (db, res_json (JArr (map select_profile (users db))))).

(** The [user] object of the register and login answers:
    [{ id, email, name, role }]. *)
Definition session_user (k : Z) (email name role : text) : json :=
  JObj [("id", JNum k); ("email", json_of_text email);
        ("name", json_of_text name); ("role", json_of_text role)].

(** POST /api/auth/register.  [password] is [None] when the body has
    no string there, on which [bcrypt.hashSync] throws.  The user
    object of the answer echoes the body: an email or name that the
    body lacks, which [res.json] leaves out of the object, is null
    here, as one that the body gives as null is. *)
Definition post_auth_register (db : database) (email : text)
    (password : option string) (name : text) : database * response :=
  match password with
  | None => (db, res_uncaught)
  | Some p =>
      let hashedPassword := hashSync p in
      match insert_user db email (Some hashedPassword) name (Some "user")
                        None None with
      | Some (db', k) =>
          let token := sign (mkClaims k email (Some "user") name) in
          (db', res_json (JObj [("token", JStr token);
                                ("user", session_user k email name (Some "user"))]))
      | None => (db, res_error 400 "Email already exists")
      end
  end.

(** POST /api/auth/login *)
Definition post_auth_login (db : database) (email : text)
    (password : option string) : database * response :=
  match find (fun u => Sql.text_eq (Users.email u) email) (users db) with
  | None => (db, res_error 401 "Invalid credentials")
  | Some user =>
      match password, Users.password user with
      | Some p, Some hash =>
          if negb (compareSync p hash) then
            (db, res_error 401 "Invalid credentials")
          else
            let token := sign (mkClaims (Users.id user) (Users.email user)
                                        (Users.role user) (Users.name user)) in
            (db, res_json (JObj [("token", JStr token);
                                 ("user", session_user (Users.id user)
                                            (Users.email user) (Users.name user)
                                            (Users.role user))]))
      | _, _ => (db, res_uncaught)
      end
  end.

(** GET /api/conferences *)
Definition get_conferences (db : database) : database * response :=
  (db, res_json (JArr (map Conferences.json
                         (Sql.order_by Conferences.date (conferences db))))).

(** POST /api/conferences *)
Definition post_conferences (db : database) (auth : bearer)
    (title description date location : text) : database * response :=
  route db (
    user <- authenticate auth ;;
    _ <- isAdmin user ;;
    next (let (db', k) := insert_conference db title description date location in
          (db', res_id k))).

(** The [reviewers] column of the admin listing:
    [SELECT GROUP_CONCAT(u2.name, ', ') FROM reviews r JOIN users u2
     ON r.reviewer_id = u2.id WHERE r.submission_id = s.id]. *)
Definition reviewers (db : database) (s : Submissions.row) : text :=
  Sql.group_concat ", "
    (flat_map (fun r =>
       flat_map (fun u2 =>
         if Sql.eq (Reviews.reviewer_id r) (VInt (Users.id u2))
            && Sql.eq (Reviews.submission_id r) (VInt (Submissions.id s))
         then [Users.name u2] else [])
         (users db))
       (reviews db)).

(** The admin branch of GET /api/submissions. *)
Definition select_all_submissions (db : database) : list json :=
  flat_map (fun s =>
    flat_map (fun u =>
      if Sql.eq (Submissions.user_id s) (VInt (Users.id u)) then
        flat_map (fun c =>
          if Sql.eq (Submissions.conference_id s) (VInt (Conferences.id c)) then
            [JObj (Submissions.columns s
                   ++ [("author_name", json_of_text (Users.name u));
                       ("conference_title", json_of_text (Conferences.title c));
                       ("reviewers", json_of_text (reviewers db s))])]
          else [])
          (conferences db)
      else [])
      (users db))
    (submissions db).

(** The other branch: [... WHERE s.user_id = ?]. *)
Definition select_own_submissions (db : database) (user_id : Z) : list json :=
  flat_map (fun s =>
    flat_map (fun c =>
      if Sql.eq (Submissions.conference_id s) (VInt (Conferences.id c))
         && Sql.eq (Submissions.user_id s) (VInt user_id)
      then [JObj (Submissions.columns s
                  ++ [("conference_title", json_of_text (Conferences.title c))])]
      else [])
      (conferences db))
    (submissions db).

(** GET /api/submissions (listSubmissions) *)
Definition get_submissions (db : database) (auth : bearer)
  : database * response :=
  route db (
    user <- authenticate auth ;;
    let submissions :=
      if is_admin_role user then select_all_submissions db
      else select_own_submissions db (id user) in
    next (db, res_json (JArr submissions))).

(** POST /api/submissions/:id/assign (assignReviewer) *)
Definition post_submissions_assign (db : database) (auth : bearer)
    (submission_id reviewer_id : value) : database * response :=
  route db (
    user <- authenticate auth ;;
    _ <- isAdmin user ;;
    let existing :=
      find (fun r => Sql.eq (Reviews.submission_id r) submission_id
                     && Sql.eq (Reviews.reviewer_id r) reviewer_id)
           (reviews db) in
    match existing with
    | Some _ => respond (res_error 400 "Reviewer already assigned")
    | None =>
        next (run db (insert_review db submission_id reviewer_id None VNull)
                  (fun _ => res_success))
    end).

(** POST /api/submissions (createSubmission) *)
Definition post_submissions (db : database) (auth : bearer)
    (conference_id : value) (title abstract : text) (file : option string)
  : database * response :=
  route db (
    user <- authenticate auth ;;
    let file_path := file in
    next (run db (insert_submission db conference_id (VInt (id user)) title
                                    abstract file_path)
              res_id)).

(** PATCH /api/submissions/:id/status (setStatus) *)
Definition patch_submissions_status (db : database) (auth : bearer)
    (submission_id : value) (status : text) : database * response :=
  route db (
    user <- authenticate auth ;;
    _ <- isAdmin user ;;
    next (with_submissions db
            (map (status_update submission_id status) (submissions db)),
          res_success)).

(** GET /api/submissions/:id/reviews *)
Definition get_submissions_reviews (db : database) (auth : bearer)
    (submission_id : value) : database * response :=
  route db (
    user <- authenticate auth ;;
    next (db, res_json (JArr
      (flat_map (fun r =>
         flat_map (fun u =>
           if Sql.eq (Reviews.reviewer_id r) (VInt (Users.id u))
              && Sql.eq (Reviews.submission_id r) submission_id
           then [JObj (Reviews.columns r
                       ++ [("reviewer_name", json_of_text (Users.name u))])]
           else [])
           (users db))
         (reviews db))))).

(** POST /api/reviews *)
Definition post_reviews (db : database) (auth : bearer)
    (submission_id : value) (comments : text) (score : value)
  : database * response :=
  route db (
    user <- authenticate auth ;;
    _ <- isAdmin user ;;
    next (run db (insert_review db submission_id (VInt (id user)) comments score)
              (fun _ => res_success))).

(** GET /api/conferences/:id/schedule *)
Definition get_conferences_schedule (db : database) (conference_id : value)
  : database * response :=
  (db, res_json (JArr (map Schedule.json
     (Sql.order_by Schedule.start_time
        (filter (fun s => Sql.eq (Schedule.conference_id s) conference_id)
                (schedule db)))))).

(** POST /api/schedule *)
Definition post_schedule (db : database) (auth : bearer)
    (conference_id : value) (title start_time end_time room : text)
  : database * response :=
  route db (
    user <- authenticate auth ;;
    _ <- isAdmin user ;;
    next (run db (insert_schedule db conference_id title start_time end_time room)
              (fun _ => res_success))).

(** GET /api/documents (listDocuments) *)
Definition get_documents (db : database) (auth : bearer)
  : database * response :=
  route db (
    user <- authenticate auth ;;
    let docs :=
      if is_admin_role user then
        flat_map (fun d =>
          flat_map (fun u =>
            if Sql.eq (Documents.user_id d) (VInt (Users.id u)) then
              [JObj (Documents.columns d
                     ++ [("user_name", json_of_text (Users.name u))])]
            else [])
            (users db))
          (documents db)
      else
        map (fun d => JObj (Documents.columns d))
            (filter (fun d => Sql.eq (Documents.user_id d) (VInt (id user)))
                    (documents db)) in
    next (db, res_json (JArr docs))).

(** POST /api/documents (uploadDocument).  The body's [type] is read
    and not used. *)
Definition post_documents (db : database) (auth : bearer)
    (title type : text) (user_id : value) (file : option string)
  : database * response :=
  route db (
    user <- authenticate auth ;;
    let targetUserId := if is_admin_role user then user_id else VInt (id user) in
    let docType := if is_admin_role user then "admin_upload" else "user_upload" in
    let file_path := file in
    next (run db (insert_document db targetUserId title file_path (Some docType))
              res_id)).

(** PATCH /api/documents/:id/verify (verify) *)
Definition patch_documents_verify (db : database) (auth : bearer)
    (document_id : value) (status : text) : database * response :=
  route db (
    user <- authenticate auth ;;
    _ <- isAdmin user ;;
    next (with_documents db
            (map (verify_update document_id status) (documents db)),
          res_success)).

(** PATCH /api/documents/:id/accept (accept) *)
Definition patch_documents_accept (db : database) (auth : bearer)
    (document_id : value) : database * response :=
  route db (
    user <- authenticate auth ;;
    next (with_documents db
            (map (accept_update document_id (id user)) (documents db)),
          res_success)).

(** *** The server as a transition system *)

(** A request to one of the API routes. *)
Inductive request : Type :=
| GetAuthMe (auth : bearer)
| PatchProfile (auth : bearer) (name affiliation bio : text)
    (file : option string)
| GetUsers (auth : bearer)
| PostAuthRegister (email : text) (password : option string) (name : text)
| PostAuthLogin (email : text) (password : option string)
| GetConferences
| PostConferences (auth : bearer) (title description date location : text)
| GetSubmissions (auth : bearer)
| PostSubmissionsAssign (auth : bearer) (submission_id reviewer_id : value)
| PostSubmissions (auth : bearer) (conference_id : value)
    (title abstract : text) (file : option string)
| PatchSubmissionsStatus (auth : bearer) (submission_id : value)
    (status : text)
| GetSubmissionsReviews (auth : bearer) (submission_id : value)
| PostReviews (auth : bearer) (submission_id : value) (comments : text)
    (score : value)
| GetConferencesSchedule (conference_id : value)
| PostSchedule (auth : bearer) (conference_id : value)
    (title start_time end_time room : text)
| GetDocuments (auth : bearer)
| PostDocuments (auth : bearer) (title type : text) (user_id : value)
    (file : option string)
| PatchDocumentsVerify (auth : bearer) (document_id : value) (status : text)
| PatchDocumentsAccept (auth : bearer) (document_id : value).

Definition handle (db : database) (req : request) : database * response :=
  match req with
  | GetAuthMe auth => get_auth_me db auth
  | PatchProfile auth name affiliation bio file =>
      patch_profile db auth name affiliation bio file
  | GetUsers auth => get_users db auth
  | PostAuthRegister email password name =>
      post_auth_register db email password name
  | PostAuthLogin email password => post_auth_login db email password
  | GetConferences => get_conferences db
  | PostConferences auth title description date location =>
      post_conferences db auth title description date location
  | GetSubmissions auth => get_submissions db auth
  | PostSubmissionsAssign auth submission_id reviewer_id =>
      post_submissions_assign db auth submission_id reviewer_id
  | PostSubmissions auth conference_id title abstract file =>
      post_submissions db auth conference_id title abstract file
  | PatchSubmissionsStatus auth submission_id status =>
      patch_submissions_status db auth submission_id status
  | GetSubmissionsReviews auth submission_id =>
      get_submissions_reviews db auth submission_id
  | PostReviews auth submission_id comments score =>
      post_reviews db auth submission_id comments score
  | GetConferencesSchedule conference_id =>
      get_conferences_schedule db conference_id
  | PostSchedule auth conference_id title start_time end_time room =>
      post_schedule db auth conference_id title start_time end_time room
  | GetDocuments auth => get_documents db auth
  | PostDocuments auth title type user_id file =>
      post_documents db auth title type user_id file
  | PatchDocumentsVerify auth document_id status =>
      patch_documents_verify db auth document_id status
  | PatchDocumentsAccept auth document_id =>
      patch_documents_accept db auth document_id
  end.

(** The database after a sequence of requests, served one at a time. *)
Definition serve (db : database) (reqs : list request) : database :=
  fold_left (fun db req => fst (handle db req)) reqs db.

(** The responses to a sequence of requests, in order. *)
Fixpoint responses (db : database) (reqs : list request) : list response :=
  match reqs with
  | [] => []
  | req :: rest =>
      let (db', res) := handle db req in res :: responses db' rest
  end.

(** The states the server can be in: those some sequence of requests
    leads to from the first start. *)
Definition reachable (db : database) : Prop :=
  exists reqs, db = serve initial reqs.

(** *** Properties of states *)

(** The pairs [(submission_id, reviewer_id)] of the review rows, and
    whether two rows carry the same one. *)
Definition same_assignment (r1 r2 : Reviews.row) : bool :=
  Sql.eq (Reviews.submission_id r1) (Reviews.submission_id r2)
  && Sql.eq (Reviews.reviewer_id r1) (Reviews.reviewer_id r2).

Fixpoint unique_assignments (rs : list Reviews.row) : bool :=
  match rs with
  | [] => true
  | r :: rest => negb (existsb (same_assignment r) rest)
                 && unique_assignments rest
  end.

(** The review rows of the pair [(s, r)]. *)
Definition assignments (db : database) (s r : value) : list Reviews.row :=
  filter (fun x => Sql.eq (Reviews.submission_id x) s
                   && Sql.eq (Reviews.reviewer_id x) r)
         (reviews db).

(** The document rows with key [k]. *)
Definition documents_with (db : database) (k : Z) : list Documents.row :=
  filter (fun d => Documents.id d =? k) (documents db).

(** The values the specification allows a submission status and a
    verification status to take. *)
Definition submission_statuses : list string :=
  ["pending"; "under_review"; "accepted"; "rejected"].

Definition verification_statuses : list string := ["verified"; "rejected"].

Definition status_in (allowed : list string) (status : text) : bool :=
  match status with
  | Some s => existsb (String.eqb s) allowed
  | None => false
  end.

(** *** What a request does to the submissions and documents *)

(** A request leaves the submissions as they are, appends a pending
    one, or is an admin's setStatus. *)
Inductive submissions_change (db : database) (req : request)
  : list Submissions.row -> Prop :=
| submissions_kept : submissions_change db req (submissions db)
| submission_created (s : Submissions.row) :
    Submissions.status s = Some "pending" ->
    submissions_change db req (submissions db ++ [s])
| submission_status_set (admin : claims) (k : value) (st : text) :
    req = PatchSubmissionsStatus (Token admin) k st ->
    is_admin_role admin = true ->
    submissions_change db req (map (status_update k st) (submissions db)).

(** A request leaves the documents as they are, appends a pending,
    not accepted one, or is an admin's verify or a user's accept. *)
Inductive documents_change (db : database) (req : request)
  : list Documents.row -> Prop :=
| documents_kept : documents_change db req (documents db)
| document_created (d : Documents.row) :
    Documents.status d = Some "pending" ->
    Documents.accepted d = VInt 0 ->
    documents_change db req (documents db ++ [d])
| document_verified (admin : claims) (k : value) (st : text) :
    req = PatchDocumentsVerify (Token admin) k st ->
    is_admin_role admin = true ->
    documents_change db req (map (verify_update k st) (documents db))
| document_accepted (user : claims) (k : value) :
    req = PatchDocumentsAccept (Token user) k ->
    documents_change db req (map (accept_update k (id user)) (documents db)).

(** *** Routes by their middleware *)

(** The Authorization header a route passes to [authenticate]; the
    four routes without that middleware have none. *)
Definition bearer_of (req : request) : option bearer :=
  match req with
  | GetAuthMe auth | PatchProfile auth _ _ _ _ | GetUsers auth
  | PostConferences auth _ _ _ _ | GetSubmissions auth
  | PostSubmissionsAssign auth _ _ | PostSubmissions auth _ _ _ _
  | PatchSubmissionsStatus auth _ _ | GetSubmissionsReviews auth _
  | PostReviews auth _ _ _ | PostSchedule auth _ _ _ _ _
  | GetDocuments auth | PostDocuments auth _ _ _ _
  | PatchDocumentsVerify auth _ _ | PatchDocumentsAccept auth _ => Some auth
  | PostAuthRegister _ _ _ | PostAuthLogin _ _ | GetConferences
  | GetConferencesSchedule _ => None
  end.

(** The routes that name [isAdmin] after [authenticate]. *)
Definition admin_only (req : request) : bool :=
  match req with
  | GetUsers _ | PostConferences _ _ _ _ _ | PostSubmissionsAssign _ _ _
  | PatchSubmissionsStatus _ _ _ | PostReviews _ _ _ _
  | PostSchedule _ _ _ _ _ _ | PatchDocumentsVerify _ _ _ => true
  | _ => false
  end.

(** *** More properties of states *)

(** Whether two values are the same value.  Unlike under [Sql.eq],
    NULL is the same as NULL here. *)
Definition same_value (a b : value) : bool :=
  match a, b with
  | VNull, VNull => true
  | VInt x, VInt y => x =? y
  | VText s, VText t => String.eqb s t
  | _, _ => false
  end.

(** Whether two review rows carry the same [(submission_id,
    reviewer_id)], and whether no two rows of a table do. *)
Definition same_pair (r1 r2 : Reviews.row) : bool :=
  same_value (Reviews.submission_id r1) (Reviews.submission_id r2)
  && same_value (Reviews.reviewer_id r1) (Reviews.reviewer_id r2).

Fixpoint pairs_distinct (rs : list Reviews.row) : bool :=
  match rs with
  | [] => true
  | r :: rest => negb (existsb (same_pair r) rest) && pairs_distinct rest
  end.

(** No two user rows carry the same email (the UNIQUE constraint of
    the column: NULL emails do not count as equal). *)
Fixpoint unique_emails (us : list Users.row) : bool :=
  match us with
  | [] => true
  | u :: rest =>
      negb (existsb (fun v => Sql.text_eq (Users.email v) (Users.email u)) rest)
      && unique_emails rest
  end.

(** [UPDATE users SET name = ?, affiliation = ?, bio = ?
    [, profile_picture = ?] WHERE id = ?], by what it does to a row. *)
Definition profile_update (caller : Z) (name affiliation bio : text)
    (file : option string) (u : Users.row) : Users.row :=
  if Users.id u =? caller then
    Users.mk (Users.id u) (Users.email u) (Users.password u) name
             (Users.role u) affiliation bio
             match file with
             | Some profile_picture => Some profile_picture
             | None => Users.profile_picture u
             end
  else u.

(** A request leaves the users as they are, appends a row with role
    [user] whose email no stored row has, or is a profile update. *)
Inductive users_change (db : database) (req : request)
  : list Users.row -> Prop :=
| users_kept : users_change db req (users db)
| user_registered (u : Users.row) :
    existsb (fun v => Sql.text_eq (Users.email v) (Users.email u)) (users db)
    = false ->
    Users.role u = Some "user" ->
    users_change db req (users db ++ [u])
| user_updated (caller : claims) (name affiliation bio : text)
    (file : option string) :
    req = PatchProfile (Token caller) name affiliation bio file ->
    users_change db req
      (map (profile_update (id caller) name affiliation bio file) (users db)).

(** One table is the other with rows added at its end. *)
Definition extends {A : Type} (old new : list A) : Prop :=
  exists added, new = old ++ added.

(** ** Properties *)

(** *** Comparisons *)

Lemma sql_eq_int (v : value) (k : Z) : Sql.eq v (VInt k) = true -> v = VInt k.
Proof.
  destruct v as [|z|s]; simpl; try discriminate.
  intros H. apply Z.eqb_eq in H. now subst.
Qed.

Lemma key_is_int (k : Z) (v : value) : key_is k v = true -> v = VInt k.
Proof.
  unfold key_is. destruct v as [|z|s]; simpl; try discriminate.
  intros H. apply Z.eqb_eq in H. now subst.
Qed.

Lemma key_is_refl (k : Z) : key_is k (VInt k) = true.
Proof. unfold key_is. simpl. apply Z.eqb_refl. Qed.

Lemma sql_eq_int_refl (k : Z) : Sql.eq (VInt k) (VInt k) = true.
Proof. simpl. apply Z.eqb_refl. Qed.

Lemma sql_eq_other (v : value) (k : Z) : v <> VInt k -> Sql.eq v (VInt k) = false.
Proof.
  intros H. destruct (Sql.eq v (VInt k)) eqn:E; [|reflexivity].
  apply sql_eq_int in E. contradiction.
Qed.

(** *** Ownership scoping of the listings *)

Lemma own_submissions_scoped (db : database) (k : Z) :
  Forall (fun row => field "user_id" row = Some (JNum k))
         (select_own_submissions db k).
Proof.
  apply Forall_forall. intros row Hin. unfold select_own_submissions in Hin.
  apply in_flat_map in Hin. destruct Hin as [s [_ Hin]].
  apply in_flat_map in Hin. destruct Hin as [c [_ Hin]].
  destruct (Sql.eq (Submissions.conference_id s) (VInt (Conferences.id c))); simpl in Hin;
    [|contradiction].
  destruct (Sql.eq (Submissions.user_id s) (VInt k)) eqn:E; simpl in Hin;
    [|contradiction].
  destruct Hin as [<-|[]]. apply sql_eq_int in E. simpl. now rewrite E.
Qed.

Lemma own_submissions_stored (db : database) (k : Z) (row : json) :
  In row (select_own_submissions db k) ->
  exists s c, In s (submissions db) /\ In c (conferences db)
    /\ Submissions.user_id s = VInt k
    /\ row = JObj (Submissions.columns s
                   ++ [("conference_title", json_of_text (Conferences.title c))]).
Proof.
  intros Hin. unfold select_own_submissions in Hin.
  apply in_flat_map in Hin. destruct Hin as [s [Hs Hin]].
  apply in_flat_map in Hin. destruct Hin as [c [Hc Hin]].
  destruct (Sql.eq (Submissions.conference_id s) (VInt (Conferences.id c))); simpl in Hin;
    [|contradiction].
  destruct (Sql.eq (Submissions.user_id s) (VInt k)) eqn:E; simpl in Hin;
    [|contradiction].
  destruct Hin as [<-|[]]. apply sql_eq_int in E. now exists s, c.
Qed.

(** C1: for a caller who is not an admin, listSubmissions and
    listDocuments answer 200 with an array (the listing is narrowed,
    not refused), every element of which carries the caller's id as
    its [user_id] and is the image of a stored row owned by the
    caller. *)
Theorem listings_scoped_to_caller (db : database) (user : claims) :
  is_admin_role user = false ->
  exists subs docs,
    get_submissions db (Token user) = (db, res_json (JArr subs))
    /\ get_documents db (Token user) = (db, res_json (JArr docs))
    /\ Forall (fun row => field "user_id" row = Some (JNum (id user))) subs
    /\ Forall (fun row => field "user_id" row = Some (JNum (id user))) docs
    /\ (forall row, In row subs ->
          exists s, In s (submissions db)
                    /\ Submissions.user_id s = VInt (id user)
                    /\ field "id" row = Some (JNum (Submissions.id s)))
    /\ (forall row, In row docs ->
          exists d, In d (documents db)
                    /\ Documents.user_id d = VInt (id user)
                    /\ row = JObj (Documents.columns d)).
Proof.
  intros Hrole. unfold get_submissions, get_documents. simpl. rewrite Hrole.
  eexists. eexists. split; [reflexivity|]. split; [reflexivity|].
  split; [apply own_submissions_scoped|]. split; [|split].
  - apply Forall_forall. intros row Hin. apply in_map_iff in Hin.
    destruct Hin as [d [<- Hd]]. apply filter_In in Hd. destruct Hd as [_ E].
    apply sql_eq_int in E. simpl. now rewrite E.
  - intros row Hin. apply own_submissions_stored in Hin.
    destruct Hin as [s [c [Hs [_ [Hu ->]]]]]. exists s. now repeat split.
  - intros row Hin. apply in_map_iff in Hin.
    destruct Hin as [d [<- Hd]]. apply filter_In in Hd. destruct Hd as [Hd E].
    apply sql_eq_int in E. exists d. now repeat split.
Qed.

(** *** Middleware *)

Lemma admin_passes (user : claims) :
  is_admin_role user = true -> isAdmin user = next tt.
Proof. intros H. unfold isAdmin. now rewrite H. Qed.

(** *** Reviewer assignment *)

Lemma references_in (keys : list Z) (k : Z) :
  In k keys -> references keys (VInt k) = true.
Proof.
  intros H. unfold references. destruct foreign_keys; [|reflexivity].
  apply existsb_exists. exists k. split; [assumption|apply Z.eqb_refl].
Qed.

Lemma find_none_filter {A : Type} (f : A -> bool) (l : list A) :
  find f l = None <-> filter f l = [].
Proof.
  induction l as [|x l IH]; simpl; [tauto|].
  destruct (f x); [split; discriminate|exact IH].
Qed.

Lemma find_none_existsb {A : Type} (f : A -> bool) (l : list A) :
  find f l = None -> existsb f l = false.
Proof.
  induction l as [|x l IH]; simpl; [reflexivity|].
  destruct (f x); [discriminate|exact IH].
Qed.

Lemma find_app_hit {A : Type} (f : A -> bool) (l : list A) (x : A) :
  f x = true -> exists y, find f (l ++ [x]) = Some y.
Proof.
  intros Hx. induction l as [|a l IH]; simpl.
  - rewrite Hx. now exists x.
  - destruct (f a); [now exists a|exact IH].
Qed.

Lemma assign_as_admin (db : database) (admin : claims) (s r : value) :
  is_admin_role admin = true ->
  post_submissions_assign db (Token admin) s r =
  match find (fun x => Sql.eq (Reviews.submission_id x) s
                       && Sql.eq (Reviews.reviewer_id x) r) (reviews db) with
  | Some _ => (db, res_error 400 "Reviewer already assigned")
  | None => run db (insert_review db s r None VNull) (fun _ => res_success)
  end.
Proof.
  intros H. unfold post_submissions_assign. simpl.
  rewrite (admin_passes _ H). simpl.
  now destruct (find _ (reviews db)).
Qed.

Lemma assign_conflict (db : database) (admin : claims) (s r : value)
    (x : Reviews.row) :
  is_admin_role admin = true ->
  find (fun x => Sql.eq (Reviews.submission_id x) s
                 && Sql.eq (Reviews.reviewer_id x) r) (reviews db) = Some x ->
  post_submissions_assign db (Token admin) s r
  = (db, res_error 400 "Reviewer already assigned").
Proof. intros H E. rewrite (assign_as_admin _ _ _ _ H). now rewrite E. Qed.

(** C3, as the code has it: an admin assigns reviewer [R] to
    submission [S] twice.  The second call answers 400 "Reviewer
    already assigned" (Conflict) and changes nothing, whatever rows are
    stored; when no row for [(S, R)] is stored before the first call,
    the first call succeeds and the table then holds exactly one row
    for [(S, R)], with [comments] and [score] NULL. *)
Theorem assign_twice_conflict (db : database) (admin : claims) (S R : Z) :
  is_admin_role admin = true ->
  In S (map Submissions.id (submissions db)) ->
  In R (map Users.id (users db)) ->
  let first := post_submissions_assign db (Token admin) (VInt S) (VInt R) in
  let second :=
    post_submissions_assign (fst first) (Token admin) (VInt S) (VInt R) in
  snd second = res_error 400 "Reviewer already assigned"
  /\ is_conflict (snd second) = true
  /\ fst second = fst first
  /\ (assignments db (VInt S) (VInt R) = [] ->
      snd first = res_success
      /\ exists k, assignments (fst second) (VInt S) (VInt R)
                   = [Reviews.mk k (VInt S) (VInt R) None VNull]).
Proof.
  intros Hadmin HS HR first second.
  set (hit := fun x => Sql.eq (Reviews.submission_id x) (VInt S)
                       && Sql.eq (Reviews.reviewer_id x) (VInt R)).
  assert (Hins : insert_review db (VInt S) (VInt R) None VNull
                 = Some (with_reviews db
                           (reviews db
                            ++ [Reviews.mk (Sql.next_id (map Reviews.id (reviews db)))
                                           (VInt S) (VInt R) None VNull]),
                         Sql.next_id (map Reviews.id (reviews db)))).
  { unfold insert_review.
    now rewrite (references_in _ _ HS), (references_in _ _ HR). }
  set (row := Reviews.mk (Sql.next_id (map Reviews.id (reviews db)))
                         (VInt S) (VInt R) None VNull) in *.
  assert (Hrow : hit row = true).
  { unfold hit, row. simpl. now rewrite !Z.eqb_refl. }
  destruct (find hit (reviews db)) as [x|] eqn:Efind.
  - (* R is assigned already: both calls are refused *)
    assert (E1 : first = (db, res_error 400 "Reviewer already assigned")).
    { subst first. now apply (assign_conflict db admin _ _ x). }
    assert (E2 : second = (db, res_error 400 "Reviewer already assigned")).
    { subst second. rewrite E1. simpl fst.
      now apply (assign_conflict db admin _ _ x). }
    rewrite E2, E1. simpl. do 3 (split; [reflexivity|]).
    intros Hnone. apply find_none_filter in Hnone.
    change (find hit (reviews db) = None) in Hnone. congruence.
  - assert (E1 : first = (with_reviews db (reviews db ++ [row]), res_success)).
    { subst first. rewrite (assign_as_admin _ _ _ _ Hadmin).
      fold hit. rewrite Efind, Hins. reflexivity. }
    destruct (find_app_hit hit (reviews db) row Hrow) as [y Hy].
    assert (E2 : second = (with_reviews db (reviews db ++ [row]),
                           res_error 400 "Reviewer already assigned")).
    { subst second. rewrite E1. simpl fst.
      now apply (assign_conflict _ admin _ _ y). }
    rewrite E2, E1. simpl. do 3 (split; [reflexivity|]).
    intros _. split; [reflexivity|].
    exists (Sql.next_id (map Reviews.id (reviews db))).
    unfold assignments. simpl. fold hit. rewrite filter_app.
    apply find_none_filter in Efind. rewrite Efind. simpl.
    fold row. now rewrite Hrow.
Qed.

Lemma unique_app_fresh (rs : list Reviews.row) (r : Reviews.row) :
  unique_assignments rs = true ->
  existsb (fun x => same_assignment x r) rs = false ->
  unique_assignments (rs ++ [r]) = true.
Proof.
  induction rs as [|a rs IH]; simpl; [reflexivity|].
  intros Hu Hex. apply andb_true_iff in Hu. destruct Hu as [Ha Hu].
  apply orb_false_iff in Hex. destruct Hex as [Har Hex].
  rewrite (IH Hu Hex), andb_true_r.
  rewrite existsb_app. simpl. rewrite Har.
  apply negb_true_iff in Ha. now rewrite Ha.
Qed.

(** The assignment route keeps the pairs unique in the sense of a
    UNIQUE constraint, under which NULL is equal to nothing. *)
Lemma assign_keeps_unique (db : database) (auth : bearer) (s r : value) :
  unique_assignments (reviews db) = true ->
  unique_assignments (reviews (fst (post_submissions_assign db auth s r))) = true.
Proof.
  intros Hu. unfold post_submissions_assign.
  destruct auth as [| |user]; simpl; try assumption.
  unfold isAdmin. destruct (is_admin_role user); simpl; [|assumption].
  destruct (find _ (reviews db)) eqn:Efind; simpl; [assumption|].
  unfold run, insert_review.
  destruct (references _ s && references _ r); simpl; [|assumption].
  apply unique_app_fresh; [assumption|].
  apply find_none_existsb in Efind. exact Efind.
Qed.

(** *** Every route's effect on the two tables *)

Ltac route_cases :=
  repeat match goal with
         | |- context [match ?x with _ => _ end] => is_var x; destruct x; simpl
         | |- context [is_admin_role ?u] =>
             destruct (is_admin_role u) eqn:?; simpl
         | |- context [references ?keys ?v] =>
             destruct (references keys v); simpl
         | |- context [find ?f ?l] => destruct (find f l); simpl
         | |- context [existsb ?f ?l] => destruct (existsb f l); simpl
         | |- context [Users.password ?u] => destruct (Users.password u); simpl
         | |- context [compareSync ?p ?h] => destruct (compareSync p h); simpl
         end.

Lemma handle_submissions (db : database) (req : request) :
  submissions_change db req (submissions (fst (handle db req))).
Proof.
  destruct req; simpl;
    unfold get_auth_me, patch_profile, get_users, post_auth_register,
      post_auth_login, get_conferences, post_conferences, get_submissions,
      post_submissions_assign, post_submissions, patch_submissions_status,
      get_submissions_reviews, post_reviews, get_conferences_schedule,
      post_schedule, get_documents, post_documents, patch_documents_verify,
      patch_documents_accept, route, bind, authenticate, isAdmin, run, insert_user,
      insert_review, insert_submission, insert_schedule, insert_document;
    simpl; route_cases;
    try apply submissions_kept;
    try (apply (submission_created db _ (Submissions.mk _ _ _ _ _ _ _));
         reflexivity).
  eapply submission_status_set; [reflexivity|assumption].
Qed.

Lemma handle_documents (db : database) (req : request) :
  documents_change db req (documents (fst (handle db req))).
Proof.
  destruct req; simpl;
    unfold get_auth_me, patch_profile, get_users, post_auth_register,
      post_auth_login, get_conferences, post_conferences, get_submissions,
      post_submissions_assign, post_submissions, patch_submissions_status,
      get_submissions_reviews, post_reviews, get_conferences_schedule,
      post_schedule, get_documents, post_documents, patch_documents_verify,
      patch_documents_accept, route, bind, authenticate, isAdmin, run, insert_user,
      insert_review, insert_submission, insert_schedule, insert_document;
    simpl; route_cases;
    try apply documents_kept;
    try (apply (document_created db _ (Documents.mk _ _ _ _ _ _ _));
         reflexivity).
  - eapply document_verified; [reflexivity|assumption].
  - eapply document_accepted; reflexivity.
Qed.

(** *** Rows under the UPDATE statements *)

Lemma nth_error_mapped {A : Type} (f : A -> A) (l : list A) (i : nat) (x : A) :
  nth_error l i = Some x -> nth_error (map f l) i = Some (f x).
Proof. intros H. rewrite nth_error_map, H. reflexivity. Qed.

Lemma nth_error_appended {A : Type} (l : list A) (y : A) (i : nat) (x : A) :
  nth_error l i = Some x -> nth_error (l ++ [y]) i = Some x.
Proof.
  intros H. rewrite nth_error_app1; [assumption|].
  apply nth_error_Some. congruence.
Qed.

Lemma accept_update_other (k : value) (owner : Z) (d : Documents.row) :
  Documents.user_id d <> VInt owner -> accept_update k owner d = d.
Proof.
  intros H. unfold accept_update.
  now rewrite (sql_eq_other _ _ H), andb_false_r.
Qed.

Lemma accept_update_own (owner : Z) (d : Documents.row) :
  Documents.user_id d = VInt owner ->
  accept_update (VInt (Documents.id d)) owner d
  = Documents.set_accepted (VInt 1) d.
Proof.
  intros H. unfold accept_update.
  now rewrite key_is_refl, H, sql_eq_int_refl.
Qed.

Lemma accept_update_idem (k : value) (owner : Z) (d : Documents.row) :
  accept_update k owner (accept_update k owner d) = accept_update k owner d.
Proof.
  unfold accept_update.
  destruct (key_is (Documents.id d) k
            && Sql.eq (Documents.user_id d) (VInt owner)) eqn:E.
  - simpl. now rewrite E.
  - now rewrite E.
Qed.

Lemma accept_update_keeps (k : value) (owner : Z) (d : Documents.row) :
  Documents.id (accept_update k owner d) = Documents.id d
  /\ Documents.user_id (accept_update k owner d) = Documents.user_id d
  /\ (Documents.accepted d = VInt 1 ->
      Documents.accepted (accept_update k owner d) = VInt 1).
Proof.
  unfold accept_update.
  destruct (key_is (Documents.id d) k
            && Sql.eq (Documents.user_id d) (VInt owner)); simpl; tauto.
Qed.

Lemma verify_update_keeps (k : value) (st : text) (d : Documents.row) :
  Documents.id (verify_update k st d) = Documents.id d
  /\ Documents.user_id (verify_update k st d) = Documents.user_id d
  /\ Documents.accepted (verify_update k st d) = Documents.accepted d.
Proof.
  unfold verify_update. destruct (key_is (Documents.id d) k); simpl; tauto.
Qed.

Lemma accept_as_user (db : database) (user : claims) (k : value) :
  patch_documents_accept db (Token user) k
  = (with_documents db (map (accept_update k (id user)) (documents db)),
     res_success).
Proof. reflexivity. Qed.

(** C4, as the code has it: when a caller who does not own document
    [d] calls accept on its id, the answer is the 200 success answer
    (neither NotFound nor Forbidden), and the row of [d] is as it
    was. *)
Theorem accept_by_other_user (db : database) (caller : claims) (i : nat)
    (d : Documents.row) :
  nth_error (documents db) i = Some d ->
  Documents.user_id d <> VInt (id caller) ->
  let out := patch_documents_accept db (Token caller) (VInt (Documents.id d)) in
  snd out = res_success
  /\ is_not_found (snd out) = false
  /\ is_failure (snd out) = false
  /\ nth_error (documents (fst out)) i = Some d.
Proof.
  intros Hd Hother out. subst out. rewrite accept_as_user. simpl.
  do 3 (split; [reflexivity|]).
  rewrite (nth_error_mapped _ _ _ _ Hd).
  now rewrite (accept_update_other _ _ _ Hother).
Qed.

Lemma set_status_as_admin (db : database) (admin : claims) (k : value)
    (st : text) :
  is_admin_role admin = true ->
  patch_submissions_status db (Token admin) k st
  = (with_submissions db (map (status_update k st) (submissions db)),
     res_success).
Proof.
  intros H. unfold patch_submissions_status. simpl.
  now rewrite (admin_passes _ H).
Qed.

(** C5, as the code has it: for an admin, setStatus answers success
    for every status text, in the enumeration or not (and for none,
    which is stored as NULL), and the row of a submission with the
    given id then carries that status, its other columns as they were;
    every other row is as it was. *)
Theorem set_status_takes_any_value (db : database) (admin : claims) (k : Z)
    (st : text) (i : nat) (s : Submissions.row) :
  is_admin_role admin = true ->
  nth_error (submissions db) i = Some s ->
  let out := patch_submissions_status db (Token admin) (VInt k) st in
  snd out = res_success
  /\ is_failure (snd out) = false
  /\ nth_error (submissions (fst out)) i
     = Some (if Submissions.id s =? k
             then Submissions.mk (Submissions.id s) (Submissions.conference_id s)
                    (Submissions.user_id s) (Submissions.title s)
                    (Submissions.abstract s) (Submissions.file_path s) st
             else s)
  /\ exists s',
       nth_error (submissions (fst out)) i = Some s'
       /\ (Submissions.id s = k -> Submissions.status s' = st)
       /\ (Submissions.id s <> k -> Submissions.status s' = Submissions.status s).
Proof.
  intros Hadmin Hs out. subst out.
  rewrite (set_status_as_admin _ _ _ _ Hadmin). simpl.
  do 2 (split; [reflexivity|]).
  rewrite (nth_error_mapped _ _ _ _ Hs).
  unfold status_update, key_is. simpl.
  split; [reflexivity|].
  eexists. split; [reflexivity|].
  split.
  - intros ->. now rewrite Z.eqb_refl.
  - intros Hne. apply Z.eqb_neq in Hne. now rewrite Hne.
Qed.

(** C6, as the code has it: for a status text (or none, which is
    stored as NULL), verify answers success exactly when the caller's
    token carries the admin role; any other token is answered 403
    Forbidden with the database as it was; and for an admin it answers
    success whether or not a document has the given id and whether or
    not the text is [verified] or [rejected], and a row with that id
    then carries that status, its other columns as they were. *)
Theorem verify_admin_only (db : database) (auth : bearer) (k : value)
    (st : text) :
  let out := patch_documents_verify db auth k st in
  (code (snd out) = 200
   <-> exists admin, auth = Token admin /\ is_admin_role admin = true)
  /\ (forall user, auth = Token user -> is_admin_role user = false ->
      snd out = res_error 403 "Forbidden" /\ is_forbidden (snd out) = true
      /\ fst out = db)
  /\ (forall admin, auth = Token admin -> is_admin_role admin = true ->
      snd out = res_success
      /\ forall i d, nth_error (documents db) i = Some d ->
           nth_error (documents (fst out)) i
           = Some (if key_is (Documents.id d) k
                   then Documents.mk (Documents.id d) (Documents.user_id d)
                          (Documents.title d) (Documents.file_path d) st
                          (Documents.type d) (Documents.accepted d)
                   else d)
           /\ exists d',
                nth_error (documents (fst out)) i = Some d'
                /\ (k = VInt (Documents.id d) -> Documents.status d' = st)
                /\ (k <> VInt (Documents.id d) ->
                    Documents.status d' = Documents.status d)).
Proof.
  intros out. subst out. unfold patch_documents_verify.
  destruct auth as [| |user]; simpl.
  - split; [|split]; try (intros ? [=]).
    split; [discriminate|]. intros [? [[=] _]].
  - split; [|split]; try (intros ? [=]).
    split; [discriminate|]. intros [? [[=] _]].
  - unfold isAdmin. destruct (is_admin_role user) eqn:E; simpl.
    + split; [|split].
      * split; [|reflexivity]. intros _. now exists user.
      * intros ? [= <-]. congruence.
      * intros ? _ _. split; [reflexivity|]. intros i d Hd.
        rewrite (nth_error_mapped _ _ _ _ Hd). unfold verify_update.
        split; [reflexivity|].
        eexists. split; [reflexivity|].
        split.
        -- intros ->. now rewrite key_is_refl.
        -- intros Hne. destruct (key_is (Documents.id d) k) eqn:Hk;
             [|reflexivity].
           apply key_is_int in Hk. contradiction.
    + split; [|split].
      * split; [discriminate|]. intros [? [[= <-] ?]]. congruence.
      * intros ? _ _. now repeat split.
      * intros ? [= <-]. congruence.
Qed.

(** *** Uploads *)

Lemma upload_as_user (db : database) (caller : claims) (title type : text)
    (target : value) (file : option string) :
  post_documents db (Token caller) title type target file
  = run db (insert_document db
              (if is_admin_role caller then target else VInt (id caller))
              title file
              (Some (if is_admin_role caller then "admin_upload"
                     else "user_upload")))
        res_id.
Proof. reflexivity. Qed.

Lemma insert_document_known (db : database) (t : Z) (title file type : text) :
  In t (map Users.id (users db)) ->
  insert_document db (VInt t) title file type
  = Some (with_documents db
            (documents db
             ++ [Documents.mk (Sql.next_id (map Documents.id (documents db)))
                              (VInt t) title file (Some "pending") type (VInt 0)]),
          Sql.next_id (map Documents.id (documents db))).
Proof.
  intros H. unfold insert_document. now rewrite (references_in _ _ H).
Qed.

Lemma app_one_inv {A : Type} (l : list A) (x y : A) :
  l ++ [x] = l ++ [y] -> x = y.
Proof. intros H. apply app_inv_head in H. congruence. Qed.

Lemma app_one_not_self {A : Type} (l : list A) (x : A) : l <> l ++ [x].
Proof.
  intros H. apply (f_equal (@List.length A)) in H.
  rewrite length_app in H. simpl in H. lia.
Qed.

(** C7, as the code has it: an admin's upload for an existing target
    user creates a document owned by the target with type
    [admin_upload]; an upload by anyone else creates a document owned
    by the caller with type [user_upload], whatever target the body
    names; and every document an upload creates has the type of the
    caller's role, status [pending] and [accepted = 0]. *)
Theorem upload_owner_and_type (db : database) (caller : claims)
    (title type : text) (target : value) (file : option string) :
  let out := post_documents db (Token caller) title type target file in
  let created (d : Documents.row) :=
    documents (fst out) = documents db ++ [d]
    /\ snd out = res_id (Documents.id d) in
  (is_admin_role caller = true ->
   forall t, target = VInt t -> In t (map Users.id (users db)) ->
   exists d, created d /\ Documents.user_id d = VInt t
             /\ Documents.type d = Some "admin_upload")
  /\ (is_admin_role caller = false ->
      In (id caller) (map Users.id (users db)) ->
      exists d, created d /\ Documents.user_id d = VInt (id caller)
                /\ Documents.type d = Some "user_upload")
  /\ (forall d, created d ->
      Documents.status d = Some "pending"
      /\ Documents.accepted d = VInt 0
      /\ Documents.title d = title
      /\ Documents.file_path d = file
      /\ Documents.type d
         = Some (if is_admin_role caller then "admin_upload" else "user_upload")).
Proof.
  intros out created. subst created. subst out. rewrite upload_as_user.
  split; [|split].
  - intros Hadmin t -> Ht. rewrite Hadmin.
    rewrite (insert_document_known _ _ _ _ _ Ht). simpl.
    eexists. split; [split; reflexivity|]. split; reflexivity.
  - intros Huser Hin. rewrite Huser.
    rewrite (insert_document_known _ _ _ _ _ Hin). simpl.
    eexists. split; [split; reflexivity|]. split; reflexivity.
  - intros d [Hdocs _]. unfold run, insert_document in Hdocs.
    destruct (references _ _); simpl in Hdocs.
    + apply app_one_inv in Hdocs. subst d. simpl. now repeat split.
    + exfalso. exact (app_one_not_self _ _ Hdocs).
Qed.

(** *** Acceptance *)

Lemma handle_keeps_accepted (db : database) (req : request) (i : nat)
    (d : Documents.row) :
  nth_error (documents db) i = Some d ->
  exists d', nth_error (documents (fst (handle db req))) i = Some d'
    /\ Documents.id d' = Documents.id d
    /\ Documents.user_id d' = Documents.user_id d
    /\ (Documents.accepted d = VInt 1 -> Documents.accepted d' = VInt 1).
Proof.
  intros Hd. destruct (handle_documents db req) as [|new _ _|admin k st _ _|user k _].
  - exists d. tauto.
  - exists d. split; [now apply nth_error_appended|tauto].
  - exists (verify_update k st d). split; [now apply nth_error_mapped|].
    destruct (verify_update_keeps k st d) as [H1 [H2 H3]].
    rewrite H1, H2, H3. tauto.
  - exists (accept_update k (id user) d). split; [now apply nth_error_mapped|].
    apply accept_update_keeps.
Qed.

Lemma serve_keeps_accepted (reqs : list request) :
  forall (db : database) (i : nat) (d : Documents.row),
  nth_error (documents db) i = Some d ->
  Documents.accepted d = VInt 1 ->
  exists d', nth_error (documents (serve db reqs)) i = Some d'
    /\ Documents.id d' = Documents.id d
    /\ Documents.user_id d' = Documents.user_id d
    /\ Documents.accepted d' = VInt 1.
Proof.
  induction reqs as [|req reqs IH]; intros db i d Hd Hacc.
  - exists d. simpl. tauto.
  - destruct (handle_keeps_accepted db req i d Hd) as [d1 [H1 [Hid [Hu Ha]]]].
    destruct (IH _ _ _ H1 (Ha Hacc)) as [d2 [H2 [Hid2 [Hu2 Ha2]]]].
    exists d2. simpl. split; [exact H2|]. repeat split; congruence.
Qed.

Lemma accept_again (db : database) (caller : claims) (k : value) :
  fst (patch_documents_accept (fst (patch_documents_accept db (Token caller) k))
                              (Token caller) k)
  = fst (patch_documents_accept db (Token caller) k).
Proof.
  rewrite !accept_as_user. simpl. unfold with_documents. simpl.
  f_equal. rewrite map_map. apply map_ext. intros x.
  apply accept_update_idem.
Qed.

(** C8: when the owner of a document calls accept twice, both calls
    answer success, the document has [accepted = 1] after the first,
    the second leaves the database as the first left it, so that the
    document has [accepted = 1] after it too, its other columns as
    they were; and a document that has [accepted = 1] keeps it through
    every sequence of requests to the server. *)
Theorem accept_is_one_way (db : database) (i : nat) (d : Documents.row) :
  nth_error (documents db) i = Some d ->
  (forall caller, Documents.user_id d = VInt (id caller) ->
     let first :=
       patch_documents_accept db (Token caller) (VInt (Documents.id d)) in
     let second :=
       patch_documents_accept (fst first) (Token caller)
                              (VInt (Documents.id d)) in
     snd first = res_success /\ snd second = res_success
     /\ fst second = fst first
     /\ nth_error (documents (fst second)) i
        = Some (Documents.mk (Documents.id d) (Documents.user_id d)
                             (Documents.title d) (Documents.file_path d)
                             (Documents.status d) (Documents.type d) (VInt 1))
     /\ (exists d1, nth_error (documents (fst first)) i = Some d1
                    /\ Documents.accepted d1 = VInt 1)
     /\ (exists d2, nth_error (documents (fst second)) i = Some d2
                    /\ Documents.accepted d2 = VInt 1))
  /\ (Documents.accepted d = VInt 1 ->
      forall reqs, exists d',
        nth_error (documents (serve db reqs)) i = Some d'
        /\ Documents.id d' = Documents.id d
        /\ Documents.user_id d' = Documents.user_id d
        /\ Documents.accepted d' = VInt 1).
Proof.
  intros Hd. split.
  - intros caller Hown first second. subst second first.
    split; [reflexivity|]. split; [reflexivity|].
    rewrite (accept_again db caller). split; [reflexivity|].
    rewrite accept_as_user. simpl. rewrite (nth_error_mapped _ _ _ _ Hd).
    rewrite (accept_update_own _ _ Hown).
    split; [reflexivity|]. split; eexists; split; reflexivity.
  - intros Hacc reqs. now apply serve_keeps_accepted.
Qed.

(** *** Submission status *)



(** *** No answer carries a password *)

Lemma has_key_text (k : string) (t : text) : has_key k (json_of_text t) = false.
Proof. now destruct t. Qed.

Lemma has_key_value (k : string) (v : value) :
  has_key k (json_of_value v) = false.
Proof. now destruct v. Qed.

Lemma has_key_concat (k : string) (a b : list (string * json)) :
  has_key k (JObj (a ++ b)) = has_key k (JObj a) || has_key k (JObj b).
Proof. simpl. apply existsb_app. Qed.

Lemma has_key_map {A : Type} (k : string) (f : A -> json) (l : list A) :
  (forall x, has_key k (f x) = false) -> has_key k (JArr (map f l)) = false.
Proof.
  intros H. simpl. induction l as [|x l IH]; simpl; [reflexivity|].
  now rewrite H, IH.
Qed.

Lemma has_key_flat_map {A : Type} (k : string) (f : A -> list json)
    (l : list A) :
  (forall x, has_key k (JArr (f x)) = false) ->
  has_key k (JArr (flat_map f l)) = false.
Proof.
  intros H. simpl. induction l as [|x l IH]; simpl; [reflexivity|].
  rewrite existsb_app, IH, orb_false_r. apply (H x).
Qed.

Ltac no_key :=
  simpl; rewrite ?has_key_text, ?has_key_value; simpl;
  rewrite ?has_key_text, ?has_key_value; reflexivity.

Lemma no_password_profile (u : Users.row) :
  has_key "password" (select_profile u) = false.
Proof. unfold select_profile. no_key. Qed.

Lemma no_password_conference (c : Conferences.row) :
  has_key "password" (Conferences.json c) = false.
Proof. unfold Conferences.json. no_key. Qed.

Lemma no_password_schedule (s : Schedule.row) :
  has_key "password" (Schedule.json s) = false.
Proof. unfold Schedule.json. no_key. Qed.

Lemma no_password_submission (s : Submissions.row) :
  has_key "password" (JObj (Submissions.columns s)) = false.
Proof. unfold Submissions.columns. no_key. Qed.

Lemma no_password_review (r : Reviews.row) :
  has_key "password" (JObj (Reviews.columns r)) = false.
Proof. unfold Reviews.columns. no_key. Qed.

Lemma no_password_document (d : Documents.row) :
  has_key "password" (JObj (Documents.columns d)) = false.
Proof. unfold Documents.columns. no_key. Qed.

Lemma no_password_all_submissions (db : database) :
  has_key "password" (JArr (select_all_submissions db)) = false.
Proof.
  unfold select_all_submissions.
  apply has_key_flat_map. intros s.
  apply has_key_flat_map. intros u.
  destruct (Sql.eq _ _); [|reflexivity].
  apply has_key_flat_map. intros c.
  destruct (Sql.eq _ _); [|reflexivity].
  cbn [has_key existsb]. rewrite orb_false_r.
  change (has_key "password"
            (JObj (Submissions.columns s
                   ++ [("author_name", json_of_text (Users.name u));
                       ("conference_title", json_of_text (Conferences.title c));
                       ("reviewers", json_of_text (reviewers db s))])) = false).
  rewrite has_key_concat, no_password_submission. no_key.
Qed.

Lemma no_password_own_submissions (db : database) (k : Z) :
  has_key "password" (JArr (select_own_submissions db k)) = false.
Proof.
  unfold select_own_submissions.
  apply has_key_flat_map. intros s.
  apply has_key_flat_map. intros c.
  destruct (_ && _); [|reflexivity].
  cbn [has_key existsb]. rewrite orb_false_r.
  change (has_key "password"
            (JObj (Submissions.columns s
                   ++ [("conference_title", json_of_text (Conferences.title c))]))
          = false).
  rewrite has_key_concat, no_password_submission. no_key.
Qed.

Lemma no_password_session_answer (token : string) (k : Z)
    (email name role : text) :
  has_key "password"
    (JObj [("token", JStr token); ("user", session_user k email name role)])
  = false.
Proof. unfold session_user. no_key. Qed.

Lemma no_password_users (db : database) :
  has_key "password" (JArr (map select_profile (users db))) = false.
Proof. apply has_key_map. apply no_password_profile. Qed.

Lemma no_password_conferences (l : list Conferences.row) :
  has_key "password" (JArr (map Conferences.json l)) = false.
Proof. apply has_key_map. apply no_password_conference. Qed.

Lemma no_password_schedules (l : list Schedule.row) :
  has_key "password" (JArr (map Schedule.json l)) = false.
Proof. apply has_key_map. apply no_password_schedule. Qed.

Lemma no_password_reviews (db : database) (k : value) :
  has_key "password"
    (JArr (flat_map (fun r =>
             flat_map (fun u =>
               if Sql.eq (Reviews.reviewer_id r) (VInt (Users.id u))
                  && Sql.eq (Reviews.submission_id r) k
               then [JObj (Reviews.columns r
                           ++ [("reviewer_name", json_of_text (Users.name u))])]
               else [])
               (users db))
             (reviews db)))
  = false.
Proof.
  apply has_key_flat_map. intros r.
  apply has_key_flat_map. intros u.
  destruct (_ && _); [|reflexivity].
  cbn [has_key existsb]. rewrite orb_false_r.
  change (has_key "password"
            (JObj (Reviews.columns r
                   ++ [("reviewer_name", json_of_text (Users.name u))]))
          = false).
  rewrite has_key_concat, no_password_review. no_key.
Qed.

Lemma no_password_all_documents (db : database) :
  has_key "password"
    (JArr (flat_map (fun d =>
             flat_map (fun u =>
               if Sql.eq (Documents.user_id d) (VInt (Users.id u)) then
                 [JObj (Documents.columns d
                        ++ [("user_name", json_of_text (Users.name u))])]
               else [])
               (users db))
             (documents db)))
  = false.
Proof.
  apply has_key_flat_map. intros d.
  apply has_key_flat_map. intros u.
  destruct (Sql.eq _ _); [|reflexivity].
  cbn [has_key existsb]. rewrite orb_false_r.
  change (has_key "password"
            (JObj (Documents.columns d
                   ++ [("user_name", json_of_text (Users.name u))]))
          = false).
  rewrite has_key_concat, no_password_document. no_key.
Qed.

Lemma no_password_own_documents (l : list Documents.row) :
  has_key "password" (JArr (map (fun d => JObj (Documents.columns d)) l)) = false.
Proof. apply has_key_map. apply no_password_document. Qed.

Create HintDb no_password.

#[local] Hint Resolve no_password_profile no_password_session_answer
  no_password_users no_password_conferences no_password_schedules
  no_password_reviews no_password_all_documents no_password_own_documents
  no_password_all_submissions no_password_own_submissions : no_password.

Ltac open_routes :=
  unfold get_auth_me, patch_profile, get_users, post_auth_register,
    post_auth_login, get_conferences, post_conferences, get_submissions,
    post_submissions_assign, post_submissions, patch_submissions_status,
    get_submissions_reviews, post_reviews, get_conferences_schedule,
    post_schedule, get_documents, post_documents, patch_documents_verify,
    patch_documents_accept, route, bind, next, respond, authenticate, isAdmin,
    run, insert_user, insert_conference, insert_review, insert_submission,
    insert_schedule, insert_document.

Ltac answer_cases :=
  repeat (cbn beta iota zeta delta [negb fst snd next respond];
          match goal with
          | |- context [match ?x with _ => _ end] => is_var x; destruct x
          | |- context [is_admin_role ?u] => destruct (is_admin_role u)
          | |- context [references ?keys ?v] => destruct (references keys v)
          | |- context [find ?f ?l] => destruct (find f l)
          | |- context [existsb ?f ?l] => destruct (existsb f l)
          | |- context [Users.password ?u] => destruct (Users.password u)
          | |- context [compareSync ?p ?h] => destruct (compareSync p h)
          end).

(** C10: no answer of the server has a field named [password] at any
    depth; in particular the user objects that get-current-user,
    list-users, login and register return have none. *)
Theorem no_answer_exposes_password (db : database) (req : request) :
  exposes "password" (snd (handle db req)) = false.
Proof.
  destruct req; cbn [handle]; open_routes; answer_cases;
    cbn beta iota zeta delta [negb fst snd next respond exposes body res_json
                              res_error res_success res_id res_uncaught];
    auto with no_password.
Qed.

(** ** Further properties of the routes *)

(** *** The two middlewares *)

(** X2: a request to a route behind [authenticate] that carries no
    token, or a token [jwt.verify] rejects, is answered 401 and leaves
    the database as it was. *)
Theorem unauthenticated_refused (db : database) (req : request) (auth : bearer) :
  bearer_of req = Some auth ->
  auth = NoToken \/ auth = InvalidToken ->
  fst (handle db req) = db
  /\ code (snd (handle db req)) = 401
  /\ (snd (handle db req) = res_error 401 "Unauthorized"
      \/ snd (handle db req) = res_error 401 "Invalid token").
Proof.
  intros Hb Hauth.
  destruct req; simpl in Hb; try discriminate; injection Hb as ->;
    destruct Hauth as [-> | ->]; simpl; auto.
Qed.

(** X3: on each of the seven routes behind [isAdmin], a token whose
    role is not [admin] is answered 403 "Forbidden" and the database is
    as it was. *)
Theorem admin_routes_forbidden (db : database) (req : request) (user : claims) :
  admin_only req = true ->
  bearer_of req = Some (Token user) ->
  is_admin_role user = false ->
  handle db req = (db, res_error 403 "Forbidden").
Proof.
  intros Hadm Hb Hrole.
  destruct req; simpl in Hadm; try discriminate; simpl in Hb;
    injection Hb as ->; simpl;
    unfold get_users, post_conferences, post_submissions_assign,
      patch_submissions_status, post_reviews, post_schedule,
      patch_documents_verify, isAdmin; simpl; rewrite Hrole; reflexivity.
Qed.

(** *** Assignments and NULL *)

Lemma same_value_sql (a b : value) :
  b <> VNull -> same_value a b = Sql.eq a b.
Proof. intros Hb. destruct a, b; try reflexivity. contradiction. Qed.

Lemma existsb_same {A : Type} (f g : A -> bool) (l : list A) :
  (forall x, f x = g x) -> existsb f l = existsb g l.
Proof.
  intros H. induction l as [|x l IH]; simpl; [reflexivity|].
  now rewrite H, IH.
Qed.

Lemma pairs_distinct_app (rs : list Reviews.row) (r : Reviews.row) :
  pairs_distinct rs = true ->
  existsb (fun x => same_pair x r) rs = false ->
  pairs_distinct (rs ++ [r]) = true.
Proof.
  induction rs as [|a rs IH]; simpl; [reflexivity|].
  intros Hu Hex. apply andb_true_iff in Hu. destruct Hu as [Ha Hu].
  apply orb_false_iff in Hex. destruct Hex as [Har Hex].
  rewrite (IH Hu Hex), andb_true_r.
  rewrite existsb_app. simpl. rewrite Har.
  apply negb_true_iff in Ha. now rewrite Ha.
Qed.

(** X1: assignReviewer on a submission id and a reviewer id that are
    both given (not NULL) maps a reviews table in which no two rows
    carry the same pair to such a table, for every caller: it looks for
    the pair before it inserts, and with both ids given the lookup
    finds every row of the pair. *)
Theorem assign_keeps_pairs_distinct (db : database) (auth : bearer)
    (s r : value) :
  s <> VNull -> r <> VNull ->
  pairs_distinct (reviews db) = true ->
  pairs_distinct (reviews (fst (post_submissions_assign db auth s r))) = true.
Proof.
  intros Hs Hr Hu. unfold post_submissions_assign.
  destruct auth as [| |user]; simpl; try assumption.
  unfold isAdmin. destruct (is_admin_role user); simpl; [|assumption].
  destruct (find _ (reviews db)) eqn:Efind; simpl; [assumption|].
  unfold run, insert_review.
  destruct (references _ s && references _ r); simpl; [|assumption].
  apply pairs_distinct_app; [assumption|].
  apply find_none_existsb in Efind. rewrite <- Efind.
  apply existsb_same. intros x. unfold same_pair. simpl.
  now rewrite (same_value_sql _ _ Hs), (same_value_sql _ _ Hr).
Qed.

Lemma pairs_distinct_twice (rs : list Reviews.row) (a b : Reviews.row) :
  same_pair a b = true -> pairs_distinct (rs ++ [a; b]) = false.
Proof.
  intros H. induction rs as [|x rs IH]; simpl.
  - now rewrite H.
  - rewrite IH. apply andb_false_r.
Qed.

(** X26: assignReviewer with no reviewer id in the body.  For an admin
    and a stored submission the call is never refused, whatever rows
    are stored: the lookup compares with NULL and finds nothing, and a
    row with the submission's id and a NULL reviewer is added, so that
    a second such call adds a second such row. *)
Theorem assign_without_reviewer (db : database) (admin : claims) (S : Z) :
  is_admin_role admin = true ->
  In S (map Submissions.id (submissions db)) ->
  let first := post_submissions_assign db (Token admin) (VInt S) VNull in
  let second :=
    post_submissions_assign (fst first) (Token admin) (VInt S) VNull in
  snd first = res_success /\ snd second = res_success
  /\ exists k1 k2,
       reviews (fst second)
       = reviews db ++ [Reviews.mk k1 (VInt S) VNull None VNull;
                        Reviews.mk k2 (VInt S) VNull None VNull]
       /\ pairs_distinct (reviews (fst second)) = false.
Proof.
  intros Hadmin HS first second.
  assert (Hmiss : forall rs,
            find (fun x => Sql.eq (Reviews.submission_id x) (VInt S)
                           && Sql.eq (Reviews.reviewer_id x) VNull) rs = None).
  { induction rs as [|x rs IH]; simpl; [reflexivity|].
    replace (Sql.eq (Reviews.reviewer_id x) VNull) with false
      by now destruct (Reviews.reviewer_id x).
    now rewrite andb_false_r. }
  assert (Hins : forall d, submissions d = submissions db ->
            insert_review d (VInt S) VNull None VNull
            = Some (with_reviews d
                      (reviews d
                       ++ [Reviews.mk (Sql.next_id (map Reviews.id (reviews d)))
                                      (VInt S) VNull None VNull]),
                    Sql.next_id (map Reviews.id (reviews d)))).
  { intros d Hd. unfold insert_review. rewrite Hd.
    rewrite (references_in _ _ HS).
    unfold references. now destruct foreign_keys. }
  assert (E1 : first
               = (with_reviews db
                    (reviews db
                     ++ [Reviews.mk (Sql.next_id (map Reviews.id (reviews db)))
                                    (VInt S) VNull None VNull]),
                  res_success)).
  { subst first. rewrite (assign_as_admin _ _ _ _ Hadmin), Hmiss.
    now rewrite (Hins db eq_refl). }
  subst second. rewrite E1. cbn [fst snd].
  rewrite (assign_as_admin _ _ _ _ Hadmin), Hmiss.
  match goal with
  | |- context [insert_review ?d _ _ _ _] => rewrite (Hins d eq_refl)
  end.
  cbn [run fst snd reviews with_reviews].
  split; [reflexivity|]. split; [reflexivity|].
  eexists. eexists. split; [now rewrite <- app_assoc|].
  rewrite <- app_assoc. apply pairs_distinct_twice.
  unfold same_pair. simpl. now rewrite Z.eqb_refl.
Qed.

(** *** Accounts *)

Lemma handle_users (db : database) (req : request) :
  users_change db req (users (fst (handle db req))).
Proof.
  destruct req; simpl;
    unfold get_auth_me, patch_profile, get_users, post_auth_register,
      post_auth_login, get_conferences, post_conferences, get_submissions,
      post_submissions_assign, post_submissions, patch_submissions_status,
      get_submissions_reviews, post_reviews, get_conferences_schedule,
      post_schedule, get_documents, post_documents, patch_documents_verify,
      patch_documents_accept, route, bind, authenticate, isAdmin, run,
      insert_review, insert_submission, insert_schedule, insert_document;
    simpl;
    try (unfold insert_user;
         destruct (existsb _ (users db)) eqn:Hfree; simpl);
    route_cases;
    try apply users_kept.
  - eapply (user_updated db _ user name0 affiliation bio (Some s)). reflexivity.
  - eapply (user_updated db _ user name0 affiliation bio None). reflexivity.
  - apply (user_registered db _ (Users.mk _ _ _ _ _ _ _ _)); [exact Hfree|reflexivity].
Qed.

Lemma find_app_first {A : Type} (f : A -> bool) (l : list A) (x : A) :
  existsb f l = false -> f x = true -> find f (l ++ [x]) = Some x.
Proof.
  intros Hl Hx. induction l as [|a l IH]; simpl in *.
  - now rewrite Hx.
  - apply orb_false_iff in Hl. destruct Hl as [Ha Hl]. rewrite Ha. auto.
Qed.

(** X4: register, then login.  When register answers 200 for an email
    and a password, and bcrypt accepts the password against its own
    hash, then register stored one new user with that email, the name
    sent and role [user], under the id its answer gives; and login
    with the same email and password changes nothing and answers 200
    with the user object of that user: that id, the email, the stored
    name, role [user]. *)
Theorem register_then_login (db : database) (email p : string) (name : text) :
  compareSync p (hashSync p) = true ->
  code (snd (post_auth_register db (Some email) (Some p) name)) = 200 ->
  let registered := post_auth_register db (Some email) (Some p) name in
  let login := post_auth_login (fst registered) (Some email) (Some p) in
  exists k,
    users (fst registered)
    = users db
      ++ [Users.mk k (Some email) (Some (hashSync p)) name (Some "user")
                   None None None]
    /\ (exists answer user,
          body (snd registered) = Some answer
          /\ field "user" answer = Some user
          /\ field "id" user = Some (JNum k))
    /\ fst login = fst registered
    /\ code (snd login) = 200
    /\ exists answer,
         body (snd login) = Some answer
         /\ field "user" answer
            = Some (JObj [("id", JNum k); ("email", JStr email);
                          ("name", json_of_text name); ("role", JStr "user")]).
Proof.
  intros Hbcrypt Hok registered login. subst login registered.
  unfold post_auth_register in *. unfold insert_user in *.
  destruct (existsb _ (users db)) eqn:Hfree; simpl in Hok; [discriminate|].
  cbn [fst snd]. eexists. split; [reflexivity|]. split.
  - eexists. eexists. split; [reflexivity|]. split; reflexivity.
  - unfold post_auth_login. cbn [users with_users].
    rewrite (find_app_first _ _ _ Hfree); [|simpl; apply String.eqb_refl].
    cbn [Users.password]. rewrite Hbcrypt. cbn [negb fst snd].
    split; [reflexivity|]. split; [reflexivity|].
    eexists. split; reflexivity.
Qed.

(** X5: register on an email that a stored user has answers 400
    "Email already exists"; without a string password it answers 500;
    in both cases the database is as it was.  Conversely a 200 answer
    means that no stored user had the email. *)
Theorem register_refusals (db : database) (email : text)
    (password : option string) (name : text) :
  let out := post_auth_register db email password name in
  let taken :=
    existsb (fun u => Sql.text_eq (Users.email u) email) (users db) in
  (password = None -> out = (db, res_uncaught))
  /\ (password <> None -> taken = true ->
      out = (db, res_error 400 "Email already exists"))
  /\ (code (snd out) = 200 -> password <> None /\ taken = false)
  /\ (code (snd out) <> 200 -> fst out = db).
Proof.
  intros out taken. subst out taken. unfold post_auth_register, insert_user.
  destruct password as [p|]; simpl.
  - destruct (existsb _ (users db)); simpl.
    + repeat split; try discriminate; auto.
    + repeat split; try discriminate; try congruence.
  - repeat split; try discriminate; try congruence.
Qed.

(** X6: login answers 200 only for the email of a stored user whose
    stored hash bcrypt accepts the password against, the user object it
    returns carries that user's id and role, and login never changes
    the database. *)
Theorem login_sound (db : database) (email : text) (password : option string) :
  let out := post_auth_login db email password in
  fst out = db
  /\ (code (snd out) = 200 ->
      exists u p hash,
        In u (users db) /\ Sql.text_eq (Users.email u) email = true
        /\ password = Some p /\ Users.password u = Some hash
        /\ compareSync p hash = true
        /\ field "user" (match body (snd out) with Some j => j | None => JNull end)
           = Some (session_user (Users.id u) (Users.email u) (Users.name u)
                                (Users.role u))).
Proof.
  intros out. subst out. unfold post_auth_login.
  destruct (find _ (users db)) as [u|] eqn:Hfind; simpl.
  - apply find_some in Hfind. destruct Hfind as [Hin Hmail].
    destruct password as [p|]; [|simpl; split; [reflexivity|discriminate]].
    destruct (Users.password u) as [hash|] eqn:Hhash;
      [|simpl; split; [reflexivity|discriminate]].
    destruct (compareSync p hash) eqn:Hcmp; simpl.
    + split; [reflexivity|]. intros _. exists u, p, hash. now repeat split.
    + split; [reflexivity|discriminate].
  - split; [reflexivity|discriminate].
Qed.

Lemma profile_update_keeps (caller : Z) (name affiliation bio : text)
    (file : option string) (u : Users.row) :
  let u' := profile_update caller name affiliation bio file u in
  Users.id u' = Users.id u /\ Users.email u' = Users.email u
  /\ Users.password u' = Users.password u /\ Users.role u' = Users.role u.
Proof.
  unfold profile_update. destruct (Users.id u =? caller); simpl; tauto.
Qed.

Lemma unique_emails_map (f : Users.row -> Users.row) (us : list Users.row) :
  (forall u, Users.email (f u) = Users.email u) ->
  unique_emails (map f us) = unique_emails us.
Proof.
  intros Hf. induction us as [|u us IH]; simpl; [reflexivity|].
  rewrite IH, Hf. f_equal. f_equal.
  clear IH. induction us as [|v us IH]; simpl; [reflexivity|].
  now rewrite IH, Hf.
Qed.

Lemma unique_emails_app (us : list Users.row) (u : Users.row) :
  unique_emails us = true ->
  existsb (fun v => Sql.text_eq (Users.email v) (Users.email u)) us = false ->
  unique_emails (us ++ [u]) = true.
Proof.
  induction us as [|a us IH]; simpl; [reflexivity|].
  intros Hu Hex. apply andb_true_iff in Hu. destruct Hu as [Ha Hu].
  apply orb_false_iff in Hex. destruct Hex as [Hau Hex].
  rewrite (IH Hu Hex), andb_true_r.
  rewrite existsb_app. simpl.
  apply negb_true_iff in Ha. rewrite Ha. simpl.
  rewrite orb_false_r.
  destruct (Users.email a), (Users.email u); simpl in *; try reflexivity.
  rewrite String.eqb_sym. now rewrite Hau.
Qed.

Lemma handle_keeps_unique_emails (db : database) (req : request) :
  unique_emails (users db) = true ->
  unique_emails (users (fst (handle db req))) = true.
Proof.
  intros Hu.
  destruct (handle_users db req) as [|u Hfree _|caller name affiliation bio file _].
  - exact Hu.
  - now apply unique_emails_app.
  - rewrite unique_emails_map; [exact Hu|].
    intros u. apply profile_update_keeps.
Qed.

Lemma serve_keeps_unique_emails (reqs : list request) :
  forall db : database,
  unique_emails (users db) = true ->
  unique_emails (users (serve db reqs)) = true.
Proof.
  induction reqs as [|req reqs IH]; intros db Hu; [exact Hu|].
  simpl. apply IH. now apply handle_keeps_unique_emails.
Qed.

(** X7: no request changes the id, email, password hash or role of a
    stored user, and a user row that a request adds has the role
    [user]: no route grants or removes the admin role. *)
Theorem accounts_keep_identity_and_role (db : database) (req : request)
    (i : nat) :
  (forall u, nth_error (users db) i = Some u ->
     exists u', nth_error (users (fst (handle db req))) i = Some u'
       /\ Users.id u' = Users.id u /\ Users.email u' = Users.email u
       /\ Users.password u' = Users.password u
       /\ Users.role u' = Users.role u)
  /\ (forall u', nth_error (users db) i = None ->
      nth_error (users (fst (handle db req))) i = Some u' ->
      Users.role u' = Some "user").
Proof.
  destruct (handle_users db req) as [|new _ Hrole|caller name affiliation bio file _].
  - split.
    + intros u Hu. exists u. tauto.
    + intros u' Hnone Hsome. congruence.
  - split.
    + intros u Hu. exists u. split; [now apply nth_error_appended|tauto].
    + intros u' Hnone Hsome. apply nth_error_None in Hnone.
      rewrite nth_error_app2 in Hsome by assumption.
      destruct (i - List.length (users db))%nat as [|n]; simpl in Hsome.
      * congruence.
      * destruct n; discriminate.
  - split.
    + intros u Hu.
      exists (profile_update (id caller) name affiliation bio file u).
      split; [now apply nth_error_mapped|]. apply profile_update_keeps.
    + intros u' Hnone Hsome. rewrite nth_error_map, Hnone in Hsome.
      discriminate.
Qed.

Lemma find_map_hit {A : Type} (p : A -> bool) (f : A -> A) (l : list A) :
  (forall x, p (f x) = p x) ->
  find p (map f l) = option_map f (find p l).
Proof.
  intros Hp. induction l as [|x l IH]; simpl; [reflexivity|].
  rewrite Hp. destruct (p x); [reflexivity|exact IH].
Qed.

(** X8: updating the profile.  For a caller whose id is stored, the
    answer is 200 with the caller's profile, in which name, affiliation
    and bio are the values sent and email and role are the stored ones;
    the picture is the uploaded file, or the stored one when no file is
    sent; GET /api/auth/me then returns the same object; and the rows
    of all other users are as they were. *)
Theorem profile_update_round_trip (db : database) (caller : claims)
    (name affiliation bio : text) (file : option string) (u : Users.row) :
  find (fun v => Users.id v =? id caller) (users db) = Some u ->
  let out := patch_profile db (Token caller) name affiliation bio file in
  snd out
  = res_json
      (JObj [("id", JNum (Users.id u)); ("email", json_of_text (Users.email u));
             ("name", json_of_text name);
             ("role", json_of_text (Users.role u));
             ("affiliation", json_of_text affiliation);
             ("bio", json_of_text bio);
             ("profile_picture",
              json_of_text match file with
                           | Some f => Some f
                           | None => Users.profile_picture u
                           end)])
  /\ get_auth_me (fst out) (Token caller) = out
  /\ (forall i v, nth_error (users db) i = Some v ->
      Users.id v <> id caller ->
      nth_error (users (fst out)) i = Some v).
Proof.
  intros Hfind out.
  assert (Hout : out
    = let db' := with_users db
                   (map (profile_update (id caller) name affiliation bio file)
                        (users db)) in
      (db', match find (fun v => Users.id v =? id caller) (users db') with
            | Some v => res_json (select_profile v)
            | None => mkResponse 200 None
            end)).
  { reflexivity. }
  assert (Hfound :
    find (fun v => Users.id v =? id caller)
         (map (profile_update (id caller) name affiliation bio file) (users db))
    = Some (profile_update (id caller) name affiliation bio file u)).
  { rewrite find_map_hit; [now rewrite Hfind|].
    intros x. now destruct (profile_update_keeps (id caller) name affiliation
                              bio file x) as [-> _]. }
  pose proof (find_some _ _ Hfind) as [_ Hid].
  rewrite Hout. cbv zeta. cbn [fst snd users with_users].
  split; [|split].
  - rewrite Hfound. unfold profile_update. rewrite Hid.
    unfold select_profile. simpl. now destruct file.
  - unfold get_auth_me. simpl. reflexivity.
  - intros i v Hv Hother. rewrite (nth_error_mapped _ _ _ _ Hv).
    unfold profile_update. apply Z.eqb_neq in Hother. now rewrite Hother.
Qed.

(** *** Listings *)

(** X9: the reviews of a submission are listed for every token alike,
    whether admin, author or neither: the answer does not depend on who
    asks, and it holds every stored review of the submission by a
    stored user, with its comments, its score and the reviewer's
    name. *)
Theorem reviews_listing_open_to_all (db : database) (a b : claims) (S : Z)
    (r : Reviews.row) (u : Users.row) :
  In r (reviews db) -> Reviews.submission_id r = VInt S ->
  In u (users db) -> Reviews.reviewer_id r = VInt (Users.id u) ->
  get_submissions_reviews db (Token a) (VInt S)
  = get_submissions_reviews db (Token b) (VInt S)
  /\ exists rows,
       snd (get_submissions_reviews db (Token a) (VInt S))
       = res_json (JArr rows)
       /\ In (JObj (Reviews.columns r
                    ++ [("reviewer_name", json_of_text (Users.name u))]))
             rows.
Proof.
  intros Hr HS Hu HR. split; [reflexivity|].
  unfold get_submissions_reviews. simpl. eexists. split; [reflexivity|].
  apply in_flat_map. exists r. split; [exact Hr|].
  apply in_flat_map. exists u. split; [exact Hu|].
  rewrite HS, HR. simpl. rewrite !Z.eqb_refl. simpl. now left.
Qed.

Lemma has_key_columns_submission (k : string) (s : Submissions.row) :
  has_key k (JObj (Submissions.columns s))
  = existsb (String.eqb k)
      ["id"; "conference_id"; "user_id"; "title"; "abstract"; "file_path";
       "status"].
Proof.
  unfold Submissions.columns. simpl.
  rewrite !has_key_text, !has_key_value. simpl. now rewrite !orb_false_r.
Qed.

(** X10: the submissions answer for a caller who is not an admin has
    no [reviewers] and no [author_name] field: the reviewer names of
    the admin listing are not in it. *)
Theorem own_listing_hides_reviewers (db : database) (user : claims) :
  is_admin_role user = false ->
  exposes "reviewers" (snd (get_submissions db (Token user))) = false
  /\ exposes "author_name" (snd (get_submissions db (Token user))) = false.
Proof.
  intros Hrole. unfold get_submissions. simpl. rewrite Hrole.
  unfold exposes, res_json. cbn [snd body].
  assert (H : forall k,
             has_key k (JObj [("conference_title", JNull)]) = false ->
             existsb (String.eqb k)
               ["id"; "conference_id"; "user_id"; "title"; "abstract";
                "file_path"; "status"] = false ->
             has_key k (JArr (select_own_submissions db (id user))) = false).
  { intros k Hk1 Hk2. unfold select_own_submissions.
    apply has_key_flat_map. intros s.
    apply has_key_flat_map. intros c.
    destruct (_ && _); [|reflexivity].
    cbn [has_key existsb]. rewrite orb_false_r.
    change (has_key k
              (JObj (Submissions.columns s
                     ++ [("conference_title",
                          json_of_text (Conferences.title c))])) = false).
    rewrite has_key_concat, has_key_columns_submission, Hk2.
    simpl in *. rewrite has_key_text.
    destruct (String.eqb k "conference_title"); [discriminate|reflexivity]. }
  split; apply H; reflexivity.
Qed.

(** X11: every element of a documents listing, for an admin or not, is
    the row of a stored document whose [user_id] is a number; for
    an admin the owner is moreover a stored user, whose name is the
    [user_name] of the element.  A document whose [user_id] is NULL is
    in no listing. *)
Theorem listed_documents_have_owner (db : database) (user : claims)
    (row : json) :
  (exists rows, snd (get_documents db (Token user)) = res_json (JArr rows)
                /\ In row rows) ->
  exists d k,
    In d (documents db)
    /\ Documents.user_id d = VInt k
    /\ field "id" row = Some (JNum (Documents.id d))
    /\ field "user_id" row = Some (JNum k)
    /\ (is_admin_role user = true ->
        exists u, In u (users db) /\ Users.id u = k
                  /\ field "user_name" row = Some (json_of_text (Users.name u)))
    /\ (is_admin_role user = false -> k = id user).
Proof.
  intros [rows [Hrows Hin]]. unfold get_documents in Hrows. simpl in Hrows.
  destruct (is_admin_role user) eqn:Hrole.
  - injection Hrows as <-.
    apply in_flat_map in Hin. destruct Hin as [d [Hd Hin]].
    apply in_flat_map in Hin. destruct Hin as [u [Hu Hin]].
    destruct (Sql.eq (Documents.user_id d) (VInt (Users.id u))) eqn:E;
      [|contradiction].
    destruct Hin as [<-|[]]. apply sql_eq_int in E.
    exists d, (Users.id u). split; [exact Hd|]. split; [exact E|].
    split; [reflexivity|]. split; [simpl; now rewrite E|].
    split; [|discriminate]. intros _. exists u.
    split; [exact Hu|]. split; reflexivity.
  - injection Hrows as <-.
    apply in_map_iff in Hin. destruct Hin as [d [<- Hd]].
    apply filter_In in Hd. destruct Hd as [Hd E]. apply sql_eq_int in E.
    exists d, (id user). split; [exact Hd|]. split; [exact E|].
    split; [reflexivity|]. split; [simpl; now rewrite E|].
    split; [discriminate|reflexivity].
Qed.

(** *** Creating, then listing *)

Lemma references_stored {A : Type} (key : A -> Z) (rows : list A) (x : A) :
  In x rows -> references (map key rows) (VInt (key x)) = true.
Proof. intros H. apply references_in. now apply in_map. Qed.

(** X12: createSubmission, then listSubmissions.  When a stored user
    who is not an admin submits to a stored conference, the answer is
    the id of a new row owned by the caller with status [pending], the
    stored rows are as they were, and the caller's listing then holds
    the new row with the title of the conference. *)
Theorem submission_created_then_listed (db : database) (caller : claims)
    (c : Conferences.row) (title abstract : text) (file : option string) :
  is_admin_role caller = false ->
  In c (conferences db) ->
  In (id caller) (map Users.id (users db)) ->
  let out := post_submissions db (Token caller) (VInt (Conferences.id c))
                              title abstract file in
  exists k,
    let created := Submissions.mk k (VInt (Conferences.id c))
                     (VInt (id caller)) title abstract file (Some "pending") in
    snd out = res_id k
    /\ submissions (fst out) = submissions db ++ [created]
    /\ exists rows,
         snd (get_submissions (fst out) (Token caller)) = res_json (JArr rows)
         /\ In (JObj (Submissions.columns created
                      ++ [("conference_title",
                           json_of_text (Conferences.title c))]))
               rows.
Proof.
  intros Hrole Hc Hcaller out. subst out.
  unfold post_submissions. simpl. unfold insert_submission.
  rewrite (references_stored Conferences.id _ _ Hc).
  rewrite (references_in _ _ Hcaller). simpl.
  eexists. split; [reflexivity|]. split; [reflexivity|].
  unfold get_submissions. simpl. rewrite Hrole.
  eexists. split; [reflexivity|].
  unfold select_own_submissions. simpl.
  apply in_flat_map. eexists. split; [apply in_or_app; right; now left|].
  apply in_flat_map. exists c. split; [exact Hc|].
  simpl. rewrite !Z.eqb_refl. simpl. now left.
Qed.

(** X13: a document issued by an admin, then accepted by its owner.
    When an admin uploads a document for a stored user who is not an
    admin, that user's listing holds the new row with type
    [admin_upload] and [accepted = 0]; when the user then calls accept
    on the id the upload returned, the answer is success, and
    every row of the user's listing with that id has [accepted = 1],
    the new row among them. *)
Theorem issued_document_then_accepted (db : database) (admin owner : claims)
    (title type : text) (file : option string) :
  is_admin_role admin = true ->
  is_admin_role owner = false ->
  In (id owner) (map Users.id (users db)) ->
  let issued :=
    post_documents db (Token admin) title type (VInt (id owner)) file in
  exists k,
    let d := Documents.mk k (VInt (id owner)) title file (Some "pending")
                          (Some "admin_upload") (VInt 0) in
    let accepted := patch_documents_accept (fst issued) (Token owner) (VInt k) in
    snd issued = res_id k
    /\ (exists rows,
          snd (get_documents (fst issued) (Token owner)) = res_json (JArr rows)
          /\ In (JObj (Documents.columns d)) rows)
    /\ snd accepted = res_success
    /\ exists rows,
         snd (get_documents (fst accepted) (Token owner)) = res_json (JArr rows)
         /\ In (JObj (Documents.columns (Documents.set_accepted (VInt 1) d)))
               rows
         /\ forall row, In row rows -> field "id" row = Some (JNum k) ->
              field "accepted" row = Some (JNum 1).
Proof.
  intros Hadmin Howner Hstored issued. subst issued.
  rewrite upload_as_user, Hadmin.
  rewrite (insert_document_known _ _ _ _ _ Hstored). simpl.
  set (k := Sql.next_id (map Documents.id (documents db))).
  set (d := Documents.mk k (VInt (id owner)) title file (Some "pending")
                         (Some "admin_upload") (VInt 0)).
  exists k. split; [reflexivity|]. split; [|split; [reflexivity|]].
  - unfold get_documents. simpl. rewrite Howner.
    eexists. split; [reflexivity|].
    apply in_map_iff. exists d. split; [reflexivity|].
    apply filter_In. split; [apply in_or_app; right; now left|].
    simpl. apply Z.eqb_refl.
  - unfold get_documents. simpl. rewrite Howner.
    eexists. split; [reflexivity|]. split.
    + apply in_map_iff. exists (Documents.set_accepted (VInt 1) d).
      split; [reflexivity|]. apply filter_In. split.
      * apply in_map_iff. exists d. split.
        -- apply (accept_update_own (id owner) d). reflexivity.
        -- apply in_or_app. right. now left.
      * simpl. apply Z.eqb_refl.
    + intros row Hrow Hid. apply in_map_iff in Hrow.
      destruct Hrow as [x [<- Hx]]. apply filter_In in Hx.
      destruct Hx as [Hx Hown]. apply in_map_iff in Hx.
      destruct Hx as [y [<- _]]. simpl in Hid.
      injection Hid as Hid. unfold accept_update in *.
      destruct (key_is (Documents.id y) (VInt k)
                && Sql.eq (Documents.user_id y) (VInt (id owner))) eqn:E.
      * reflexivity.
      * rewrite Hid, key_is_refl, Hown in E. discriminate.
Qed.

(** *** What no sequence of requests does *)

Lemma status_update_same_row (k : value) (st : text) (s : Submissions.row) :
  Submissions.set_status (Submissions.status s) (status_update k st s) = s.
Proof.
  unfold status_update. destruct (key_is _ _); now destruct s.
Qed.

Lemma documents_same_row (d d' : Documents.row) :
  Documents.set_accepted (Documents.accepted d)
    (Documents.set_status (Documents.status d) d') = d
  <-> Documents.id d' = Documents.id d
      /\ Documents.user_id d' = Documents.user_id d
      /\ Documents.title d' = Documents.title d
      /\ Documents.file_path d' = Documents.file_path d
      /\ Documents.type d' = Documents.type d.
Proof.
  destruct d, d'. unfold Documents.set_accepted, Documents.set_status. simpl.
  split.
  - intros [= -> -> -> -> ->]. now repeat split.
  - intros [-> [-> [-> [-> ->]]]]. reflexivity.
Qed.

Lemma handle_keeps_row (db : database) (req : request) (i : nat) :
  (forall s, nth_error (submissions db) i = Some s ->
     exists s', nth_error (submissions (fst (handle db req))) i = Some s'
                /\ Submissions.set_status (Submissions.status s) s' = s)
  /\ (forall d, nth_error (documents db) i = Some d ->
      exists d', nth_error (documents (fst (handle db req))) i = Some d'
                 /\ Documents.set_accepted (Documents.accepted d)
                      (Documents.set_status (Documents.status d) d') = d).
Proof.
  split.
  - intros s Hs.
    destruct (handle_submissions db req) as [|new _|admin k st _ _].
    + exists s. split; [exact Hs|now destruct s].
    + exists s. split; [now apply nth_error_appended|now destruct s].
    + exists (status_update k st s). split; [now apply nth_error_mapped|].
      apply status_update_same_row.
  - intros d Hd.
    destruct (handle_documents db req) as [|new _ _|admin k st _ _|user k _].
    + exists d. split; [exact Hd|now destruct d].
    + exists d. split; [now apply nth_error_appended|now destruct d].
    + exists (verify_update k st d). split; [now apply nth_error_mapped|].
      unfold verify_update. destruct (key_is _ _); now destruct d.
    + exists (accept_update k (id user) d).
      split; [now apply nth_error_mapped|].
      unfold accept_update. destruct (_ && _); now destruct d.
Qed.

(** X14: through every sequence of requests a stored submission stays
    where it is and keeps its id, conference, author, title, abstract
    and file, and a stored document keeps its id, owner, title, file
    and type: only the status of either, and the acceptance of a
    document, are ever written. *)
Theorem rows_keep_owner_and_content (reqs : list request) :
  forall (db : database) (i : nat),
  (forall s, nth_error (submissions db) i = Some s ->
     exists s', nth_error (submissions (serve db reqs)) i = Some s'
                /\ Submissions.set_status (Submissions.status s) s' = s)
  /\ (forall d, nth_error (documents db) i = Some d ->
      exists d', nth_error (documents (serve db reqs)) i = Some d'
                 /\ Documents.id d' = Documents.id d
                 /\ Documents.user_id d' = Documents.user_id d
                 /\ Documents.title d' = Documents.title d
                 /\ Documents.file_path d' = Documents.file_path d
                 /\ Documents.type d' = Documents.type d).
Proof.
  induction reqs as [|req reqs IH]; intros db i.
  - split.
    + intros s Hs. exists s. split; [exact Hs|now destruct s].
    + intros d Hd. exists d. now repeat split.
  - destruct (handle_keeps_row db req i) as [Hsub Hdoc].
    destruct (IH (fst (handle db req)) i) as [IHsub IHdoc]. split.
    + intros s Hs. destruct (Hsub s Hs) as [s1 [H1 E1]].
      destruct (IHsub s1 H1) as [s2 [H2 E2]].
      exists s2. split; [exact H2|].
      rewrite <- E1. rewrite <- E2 at 2. now destruct s2.
    + intros d Hd. destruct (Hdoc d Hd) as [d1 [H1 E1]].
      apply documents_same_row in E1.
      destruct (IHdoc d1 H1) as [d2 [H2 E2]].
      exists d2. split; [exact H2|]. intuition congruence.
Qed.

(** X15: of a stored document, the verification status is written
    only by an admin's verify on its id, and the acceptance only by an
    accept of its owner on its id, which sets it to 1: verify never
    touches [accepted], and accept never touches [status]. *)
Theorem document_axes_independent (db : database) (req : request) (i : nat)
    (d : Documents.row) :
  nth_error (documents db) i = Some d ->
  exists d', nth_error (documents (fst (handle db req))) i = Some d'
    /\ (Documents.status d' = Documents.status d
        \/ exists admin st,
             req = PatchDocumentsVerify (Token admin)
                     (VInt (Documents.id d)) st
             /\ is_admin_role admin = true
             /\ Documents.status d' = st
             /\ Documents.accepted d' = Documents.accepted d)
    /\ (Documents.accepted d' = Documents.accepted d
        \/ exists owner,
             req = PatchDocumentsAccept (Token owner) (VInt (Documents.id d))
             /\ Documents.user_id d = VInt (id owner)
             /\ Documents.accepted d' = VInt 1
             /\ Documents.status d' = Documents.status d).
Proof.
  intros Hd.
  destruct (handle_documents db req) as [|new _ _|admin k st Hreq Hadmin|user k Hreq].
  - exists d. tauto.
  - exists d. split; [now apply nth_error_appended|tauto].
  - exists (verify_update k st d). split; [now apply nth_error_mapped|].
    unfold verify_update. destruct (key_is (Documents.id d) k) eqn:E.
    + apply key_is_int in E. subst k. simpl. split; [|now left].
      right. exists admin, st. now repeat split.
    + tauto.
  - exists (accept_update k (id user) d). split; [now apply nth_error_mapped|].
    unfold accept_update.
    destruct (key_is (Documents.id d) k) eqn:E; simpl; [|tauto].
    destruct (Sql.eq (Documents.user_id d) (VInt (id user))) eqn:E'; simpl;
      [|tauto].
    apply key_is_int in E. apply sql_eq_int in E'. subst k.
    split; [now left|]. right. exists user. now repeat split.
Qed.

Lemma extends_refl {A : Type} (l : list A) : extends l l.
Proof. exists []. now rewrite app_nil_r. Qed.

Lemma extends_one {A : Type} (l : list A) (x : A) : extends l (l ++ [x]).
Proof. now exists [x]. Qed.

Lemma extends_trans {A : Type} (a b c : list A) :
  extends a b -> extends b c -> extends a c.
Proof.
  intros [x ->] [y ->]. exists (x ++ y). now rewrite app_assoc.
Qed.

Lemma handle_extends (db : database) (req : request) :
  extends (reviews db) (reviews (fst (handle db req)))
  /\ extends (conferences db) (conferences (fst (handle db req)))
  /\ extends (schedule db) (schedule (fst (handle db req))).
Proof.
  destruct req; simpl;
    unfold get_auth_me, patch_profile, get_users, post_auth_register,
      post_auth_login, get_conferences, post_conferences, get_submissions,
      post_submissions_assign, post_submissions, patch_submissions_status,
      get_submissions_reviews, post_reviews, get_conferences_schedule,
      post_schedule, get_documents, post_documents, patch_documents_verify,
      patch_documents_accept, route, bind, authenticate, isAdmin, run,
      insert_user, insert_review, insert_submission, insert_schedule,
      insert_document;
    simpl; route_cases;
    repeat split; first [apply extends_refl | apply extends_one].
Qed.

(** X16: no sequence of requests deletes or rewrites a review, a
    conference or a schedule item: each of the three tables is, after
    the requests, what it was with rows added at its end. *)
Theorem reference_tables_append_only (reqs : list request) :
  forall db : database,
  extends (reviews db) (reviews (serve db reqs))
  /\ extends (conferences db) (conferences (serve db reqs))
  /\ extends (schedule db) (schedule (serve db reqs)).
Proof.
  induction reqs as [|req reqs IH]; intros db.
  - repeat split; apply extends_refl.
  - destruct (handle_extends db req) as [H1 [H2 H3]].
    destruct (IH (fst (handle db req))) as [I1 [I2 I3]].
    simpl. repeat split; eapply extends_trans; eassumption.
Qed.

(** *** Start-up *)

Lemma seed_has_admin (db db' : database) (k : Z) :
  seed db = Some (db', k) ->
  existsb (fun u => Sql.text_eq (Users.role u) (Some "admin")) (users db')
  = true.
Proof.
  unfold seed, and_then, insert_user, insert_conference, insert_schedule.
  repeat match goal with
         | |- context [if ?c then _ else _] =>
             destruct c; try discriminate; cbn beta iota
         end.
  intros [= <- _]. simpl. rewrite !existsb_app. simpl.
  now rewrite !orb_true_r.
Qed.

(** X17: start-up seeds at most once.  When start-up succeeds, a
    second start-up on the database it left changes nothing: the seed
    block is skipped as soon as a user with role [admin] is stored. *)
Theorem startup_idempotent (db db' : database) :
  startup db = Some db' -> startup db' = Some db'.
Proof.
  unfold startup.
  destruct (existsb _ (users db)) eqn:Hadmin.
  - intros [= <-]. now rewrite Hadmin.
  - destruct (seed db) as [[seeded k]|] eqn:Hseed; [|discriminate].
    intros [= <-]. now rewrite (seed_has_admin _ _ _ Hseed).
Qed.

(** *** Missing parents *)

Lemma flat_map_nothing {A B : Type} (f : A -> list B) (l : list A) :
  (forall x, In x l -> f x = []) -> flat_map f l = [].
Proof.
  intros H. induction l as [|x l IH]; simpl; [reflexivity|].
  rewrite (H x (or_introl eq_refl)), IH; [reflexivity|].
  intros y Hy. apply H. now right.
Qed.

Lemma absent_key (keys : list Z) (k : Z) :
  ~ In k keys -> existsb (Z.eqb k) keys = false.
Proof.
  intros H. destruct (existsb (Z.eqb k) keys) eqn:E; [|reflexivity].
  apply existsb_exists in E. destruct E as [x [Hx E]].
  apply Z.eqb_eq in E. now subst.
Qed.

(** X18: createSubmission for a conference id that no conference has.
    When the database enforces foreign keys the answer is 500 and
    nothing is stored.  When it does not, the answer is the id of a
    new pending row, and that row is in no listing: the submissions
    answer is for every token what it was before, because both
    listings join the conference. *)
Theorem submission_to_absent_conference (db : database) (caller : claims)
    (cid : Z) (title abstract : text) (file : option string) :
  ~ In cid (map Conferences.id (conferences db)) ->
  In (id caller) (map Users.id (users db)) ->
  let out := post_submissions db (Token caller) (VInt cid) title abstract file in
  (foreign_keys = true -> out = (db, res_uncaught))
  /\ (foreign_keys = false ->
      (exists k,
         snd out = res_id k
         /\ submissions (fst out)
            = submissions db
              ++ [Submissions.mk k (VInt cid) (VInt (id caller)) title abstract
                                 file (Some "pending")])
      /\ forall auth,
           snd (get_submissions (fst out) auth) = snd (get_submissions db auth)).
Proof.
  intros Habsent Hcaller out. subst out.
  unfold post_submissions. simpl. unfold insert_submission.
  split; intros Hfk.
  - unfold references. rewrite Hfk. now rewrite (absent_key _ _ Habsent).
  - unfold references. rewrite Hfk. simpl.
    split; [eexists; split; reflexivity|].
    assert (Hmiss : forall c, In c (conferences db) ->
                      (cid =? Conferences.id c) = false).
    { intros c Hc. apply Z.eqb_neq. intros ->. apply Habsent.
      now apply in_map. }
    intros [| |user]; try reflexivity.
    unfold get_submissions. simpl. f_equal. f_equal.
    destruct (is_admin_role user).
    + unfold select_all_submissions. simpl. rewrite flat_map_app. simpl.
      rewrite app_nil_r.
      rewrite (flat_map_nothing _ (users db)); [now rewrite app_nil_r|].
      intros u _. destruct (_ =? _); [|reflexivity].
      apply flat_map_nothing. intros c Hc. now rewrite (Hmiss c Hc).
    + unfold select_own_submissions. simpl. rewrite flat_map_app. simpl.
      rewrite app_nil_r.
      rewrite (flat_map_nothing _ (conferences db)); [now rewrite app_nil_r|].
      intros c Hc. now rewrite (Hmiss c Hc).
Qed.

(** *** Assigning, then reading the reviews *)

(** X19: assignReviewer, then the reviews of the submission.  When an
    admin assigns a stored user to a stored submission and the call
    succeeds, the reviews listing of that submission, for any token,
    holds the assignment with [comments] and [score] null and the
    reviewer's name. *)
Theorem assignment_then_listed (db : database) (admin reader : claims)
    (s : Submissions.row) (u : Users.row) :
  is_admin_role admin = true ->
  In s (submissions db) -> In u (users db) ->
  let out := post_submissions_assign db (Token admin)
               (VInt (Submissions.id s)) (VInt (Users.id u)) in
  snd out = res_success ->
  exists k rows,
    snd (get_submissions_reviews (fst out) (Token reader)
                                 (VInt (Submissions.id s)))
    = res_json (JArr rows)
    /\ In (JObj [("id", JNum k); ("submission_id", JNum (Submissions.id s));
                 ("reviewer_id", JNum (Users.id u)); ("comments", JNull);
                 ("score", JNull);
                 ("reviewer_name", json_of_text (Users.name u))])
          rows.
Proof.
  intros Hadmin Hs Hu out Hok. subst out.
  rewrite (assign_as_admin _ _ _ _ Hadmin) in *.
  destruct (find _ (reviews db)); [discriminate|].
  unfold run, insert_review in *.
  rewrite (references_stored Submissions.id _ _ Hs) in *.
  rewrite (references_stored Users.id _ _ Hu) in *. simpl.
  unfold get_submissions_reviews. simpl.
  eexists. eexists. split; [reflexivity|].
  apply in_flat_map. eexists. split; [apply in_or_app; right; now left|].
  apply in_flat_map. exists u. split; [exact Hu|].
  simpl. rewrite !Z.eqb_refl. simpl. now left.
Qed.

(** *** The two ordered listings *)

Lemma text_leb_total (a b : text) :
  Sql.text_leb a b = false -> Sql.text_leb b a = true.
Proof.
  destruct a as [s|], b as [t|]; simpl; try discriminate; try reflexivity.
  intros H. destruct (String.leb_total s t) as [E|E]; congruence.
Qed.

Lemma insert_by_permutation {A : Type} (key : A -> text) (x : A) (l : list A) :
  Permutation (Sql.insert_by key x l) (x :: l).
Proof.
  induction l as [|y l IH]; simpl; [apply Permutation_refl|].
  destruct (Sql.text_leb (key y) (key x)).
  - eapply Permutation_trans; [apply perm_skip; exact IH|apply perm_swap].
  - apply Permutation_refl.
Qed.

Lemma order_by_permutation {A : Type} (key : A -> text) (l : list A) :
  Permutation (Sql.order_by key l) l.
Proof.
  unfold Sql.order_by.
  assert (H : forall acc,
             Permutation (fold_left (fun acc x => Sql.insert_by key x acc) l acc)
                         (acc ++ l)).
  { induction l as [|x l IH]; intros acc; simpl.
    - rewrite app_nil_r. apply Permutation_refl.
    - eapply Permutation_trans; [apply IH|].
      eapply Permutation_trans;
        [apply Permutation_app_tail; apply insert_by_permutation|].
      simpl. apply Permutation_middle. }
  exact (H []).
Qed.

Lemma insert_by_sorted {A : Type} (key : A -> text) (x : A) (l : list A) :
  Sorted (fun a b => Sql.text_leb (key a) (key b) = true) l ->
  Sorted (fun a b => Sql.text_leb (key a) (key b) = true)
         (Sql.insert_by key x l).
Proof.
  induction l as [|y l IH]; intros Hs; simpl.
  - repeat constructor.
  - destruct (Sql.text_leb (key y) (key x)) eqn:E.
    + apply Sorted_inv in Hs. destruct Hs as [Hs Hhd].
      constructor; [now apply IH|].
      destruct l as [|z l]; simpl.
      * constructor. exact E.
      * destruct (Sql.text_leb (key z) (key x)); constructor;
          [now inversion Hhd|exact E].
    + constructor; [exact Hs|]. constructor. now apply text_leb_total.
Qed.

Lemma order_by_sorted {A : Type} (key : A -> text) (l : list A) :
  Sorted (fun a b => Sql.text_leb (key a) (key b) = true) (Sql.order_by key l).
Proof.
  unfold Sql.order_by.
  assert (H : forall acc,
             Sorted (fun a b => Sql.text_leb (key a) (key b) = true) acc ->
             Sorted (fun a b => Sql.text_leb (key a) (key b) = true)
                    (fold_left (fun acc x => Sql.insert_by key x acc) l acc)).
  { induction l as [|x l IH]; intros acc Hacc; simpl; [exact Hacc|].
    apply IH. now apply insert_by_sorted. }
  apply H. constructor.
Qed.

(** X20: the conference listing needs no token, changes nothing, and
    holds every stored conference exactly once, in ascending order of
    the date text (a conference without a date first). *)
Theorem conferences_listed_by_date (db : database) :
  fst (get_conferences db) = db
  /\ exists l,
       snd (get_conferences db) = res_json (JArr (map Conferences.json l))
       /\ Permutation l (conferences db)
       /\ Sorted (fun a b => Sql.text_leb (Conferences.date a)
                                          (Conferences.date b) = true) l.
Proof.
  split; [reflexivity|].
  exists (Sql.order_by Conferences.date (conferences db)).
  split; [reflexivity|].
  split; [apply order_by_permutation|apply order_by_sorted].
Qed.

(** X21: the schedule of a conference needs no token, changes nothing,
    and holds exactly the stored schedule items of that conference,
    each once, in ascending order of the start time text; a schedule
    item of another conference, or of none, is not in it. *)
Theorem schedule_listed_by_start_time (db : database) (cid : Z) :
  fst (get_conferences_schedule db (VInt cid)) = db
  /\ exists l,
       snd (get_conferences_schedule db (VInt cid))
       = res_json (JArr (map Schedule.json l))
       /\ Sorted (fun a b => Sql.text_leb (Schedule.start_time a)
                                          (Schedule.start_time b) = true) l
       /\ Permutation l
            (filter (fun s => Sql.eq (Schedule.conference_id s) (VInt cid))
                    (schedule db))
       /\ forall s, In s l <->
                    In s (schedule db) /\ Schedule.conference_id s = VInt cid.
Proof.
  split; [reflexivity|].
  set (items := filter (fun s => Sql.eq (Schedule.conference_id s) (VInt cid))
                       (schedule db)).
  exists (Sql.order_by Schedule.start_time items).
  split; [reflexivity|]. split; [apply order_by_sorted|].
  split; [apply order_by_permutation|].
  intros s. split.
  - intros Hin.
    apply (Permutation_in _ (order_by_permutation Schedule.start_time items))
      in Hin.
    apply filter_In in Hin. destruct Hin as [Hin E].
    split; [exact Hin|now apply sql_eq_int].
  - intros [Hin E].
    apply (Permutation_in _
             (Permutation_sym (order_by_permutation Schedule.start_time items))).
    apply filter_In. split; [exact Hin|]. rewrite E. apply sql_eq_int_refl.
Qed.

(** X22: an admin creates a conference, then anyone lists the
    conferences.  The answer to the creation is the id of a new row
    with status [upcoming], and the listing then holds that row. *)
Theorem conference_created_then_listed (db : database) (admin : claims)
    (title description date location : text) :
  is_admin_role admin = true ->
  let out := post_conferences db (Token admin) title description date location in
  exists k rows,
    snd out = res_id k
    /\ conferences (fst out)
       = conferences db
         ++ [Conferences.mk k title description date location (Some "upcoming")]
    /\ snd (get_conferences (fst out)) = res_json (JArr rows)
    /\ In (Conferences.json
             (Conferences.mk k title description date location
                             (Some "upcoming")))
          rows.
Proof.
  intros Hadmin out. subst out. unfold post_conferences. simpl.
  rewrite (admin_passes _ Hadmin). simpl.
  eexists. eexists. split; [reflexivity|]. split; [reflexivity|].
  split; [reflexivity|].
  apply in_map.
  apply (Permutation_in _
           (Permutation_sym (order_by_permutation Conferences.date _))).
  apply in_or_app. right. now left.
Qed.

(** *** Missing email, unknown id *)

(** X24: an account without an email.  Register with no email in the
    body and a string password always answers 200 and stores a user
    whose email is NULL, however many such users are stored already;
    and login with no email is answered 401 whatever the password and
    the stored users are, so that account cannot be logged into. *)
Theorem account_without_email (db : database) (p : string) (name : text)
    (password : option string) :
  (exists k,
     code (snd (post_auth_register db None (Some p) name)) = 200
     /\ users (fst (post_auth_register db None (Some p) name))
        = users db
          ++ [Users.mk k None (Some (hashSync p)) name (Some "user")
                       None None None])
  /\ post_auth_login db None password
     = (db, res_error 401 "Invalid credentials").
Proof.
  assert (Hnone : existsb (fun u => Sql.text_eq (Users.email u) None) (users db)
                  = false).
  { induction (users db) as [|u us IH]; simpl; [reflexivity|].
    rewrite IH. now destruct (Users.email u). }
  split.
  - unfold post_auth_register, insert_user. rewrite Hnone. simpl.
    eexists. split; reflexivity.
  - unfold post_auth_login.
    destruct (find _ (users db)) as [u|] eqn:Hfind; [|reflexivity].
    apply find_some in Hfind. destruct Hfind as [_ Hmail].
    now destruct (Users.email u).
Qed.

Lemma map_profile_update_unknown (caller : Z) (name affiliation bio : text)
    (file : option string) (us : list Users.row) :
  find (fun v => Users.id v =? caller) us = None ->
  map (profile_update caller name affiliation bio file) us = us.
Proof.
  induction us as [|u us IH]; simpl; [reflexivity|].
  destruct (Users.id u =? caller) eqn:E; [discriminate|].
  intros H. unfold profile_update at 1. rewrite E. now rewrite IH.
Qed.

(** X25: a token whose id no stored user has.  GET /api/auth/me and
    PATCH /api/profile both answer 200 without a JSON body, and the
    profile update changes nothing. *)
Theorem unknown_id_has_no_profile (db : database) (caller : claims)
    (name affiliation bio : text) (file : option string) :
  find (fun v => Users.id v =? id caller) (users db) = None ->
  get_auth_me db (Token caller) = (db, mkResponse 200 None)
  /\ snd (patch_profile db (Token caller) name affiliation bio file)
     = mkResponse 200 None
  /\ users (fst (patch_profile db (Token caller) name affiliation bio file))
     = users db.
Proof.
  intros Hfind.
  pose proof (map_profile_update_unknown (id caller) name affiliation bio file
                (users db) Hfind) as Hmap.
  unfold profile_update in Hmap.
  split; [|split].
  - unfold get_auth_me. simpl. now rewrite Hfind.
  - unfold patch_profile. simpl. rewrite Hmap. now rewrite Hfind.
  - unfold patch_profile. simpl. exact Hmap.
Qed.

End Server.

(** ** Scenarios from the first start *)

(** Stand-ins for bcrypt and jwt where a scenario runs the server:
    the routes never look inside a hash or a token. *)
Definition plain_hash (s : string) : string := String.append "$2a$10$" s.

Definition plain_compare (s hash : string) : bool :=
  String.eqb (plain_hash s) hash.

Definition plain_sign (user : claims) : string := "header.payload.signature".

(** The database after the first start and four requests: the two
    plain users submit a paper each, the admin uploads a certificate
    for the user with id 2, and the user with id 3 uploads a passport.
    [foreign_keys] is the setting of the SQLite build. *)
Definition scenario (foreign_keys : bool) : database :=
  serve foreign_keys plain_hash plain_compare plain_sign
    (initial foreign_keys plain_hash)
    [PostSubmissions (Token seed_user) (VInt 1) (Some "A paper")
                     (Some "Its abstract") (Some "1767225600000-paper.pdf");
     PostSubmissions (Token seed_researcher) (VInt 2) (Some "Another paper")
                     (Some "Its abstract") None;
     PostDocuments (Token seed_admin) (Some "Certificate") None (VInt 2)
                   (Some "1767225600001-certificate.pdf");
     PostDocuments (Token seed_researcher) (Some "Passport") None VNull
                   (Some "1767225600002-passport.pdf")].

(** The rows the scenario leaves in the two workflow tables. *)
Definition paper_1 : Submissions.row :=
  Submissions.mk 1 (VInt 1) (VInt 2) (Some "A paper") (Some "Its abstract")
                 (Some "1767225600000-paper.pdf") (Some "pending").

Definition paper_2 : Submissions.row :=
  Submissions.mk 2 (VInt 2) (VInt 3) (Some "Another paper")
                 (Some "Its abstract") None (Some "pending").

Definition certificate : Documents.row :=
  Documents.mk 1 (VInt 2) (Some "Certificate")
               (Some "1767225600001-certificate.pdf") (Some "pending")
               (Some "admin_upload") (VInt 0).

Definition passport : Documents.row :=
  Documents.mk 2 (VInt 3) (Some "Passport")
               (Some "1767225600002-passport.pdf") (Some "pending")
               (Some "user_upload") (VInt 0).

Lemma scenario_tables (foreign_keys : bool) :
  submissions (scenario foreign_keys) = [paper_1; paper_2]
  /\ documents (scenario foreign_keys) = [certificate; passport]
  /\ reviews (scenario foreign_keys) = []
  /\ map Users.id (users (scenario foreign_keys)) = [1; 2; 3; 4].
Proof. destruct foreign_keys; repeat split; reflexivity. Qed.

(** C2 fails on the code: the state below is reachable and its reviews
    table holds the pair (1, 1) twice.  A user submits a paper, the
    admin with id 1 is assigned to it as its reviewer, and files a
    review through POST /api/reviews, which inserts a second row for
    the pair where the assignment route would have refused. *)
Theorem review_creation_repeats_pair (foreign_keys : bool)
    (hashSync : string -> string) (compareSync : string -> string -> bool)
    (sign : claims -> string) :
  let start := initial foreign_keys hashSync in
  let serve := serve foreign_keys hashSync compareSync sign in
  let responses := responses foreign_keys hashSync compareSync sign in
  let reqs :=
    [PostSubmissions (Token seed_user) (VInt 1) (Some "A paper")
                     (Some "Its abstract") (Some "1767225600000-paper.pdf");
     PostSubmissionsAssign (Token seed_admin) (VInt 1) (VInt 1);
     PostReviews (Token seed_admin) (VInt 1) (Some "Sound work") (VInt 8)] in
  reachable foreign_keys hashSync compareSync sign (serve start reqs)
  /\ map code (responses start reqs) = [200; 200; 200]
  /\ reviews (serve start reqs)
     = [Reviews.mk 1 (VInt 1) (VInt 1) None VNull;
        Reviews.mk 2 (VInt 1) (VInt 1) (Some "Sound work") (VInt 8)]
  /\ unique_assignments (reviews (serve start reqs)) = false.
Proof.
  intros start serve responses reqs. split; [now exists reqs|].
  subst start serve responses reqs.
  destruct foreign_keys; repeat split; reflexivity.
Qed.

(** The listings of the user with id 2 in the scenario. *)
Lemma listings_scoped_witness :
  is_admin_role seed_user = false
  /\ exists subs docs,
       get_submissions (scenario true) (Token seed_user)
       = (scenario true, res_json (JArr subs))
       /\ get_documents (scenario true) (Token seed_user)
          = (scenario true, res_json (JArr docs))
       /\ Forall (fun row => field "user_id" row = Some (JNum 2)) subs
       /\ Forall (fun row => field "user_id" row = Some (JNum 2)) docs.
Proof.
  split; [reflexivity|].
  destruct (listings_scoped_to_caller (scenario true) seed_user eq_refl)
    as [subs [docs [H1 [H2 [H3 [H4 _]]]]]].
  exists subs, docs. repeat split; assumption.
Defined.

(** The seeded admin assigns the user with id 4 to paper 1, twice. *)
Lemma assign_twice_witness :
  is_admin_role seed_admin = true
  /\ In 1 (map Submissions.id (submissions (scenario true)))
  /\ In 4 (map Users.id (users (scenario true)))
  /\ assignments (scenario true) (VInt 1) (VInt 4) = []
  /\ snd (post_submissions_assign true (scenario true) (Token seed_admin)
                                  (VInt 1) (VInt 4)) = res_success
  /\ snd (post_submissions_assign true
            (fst (post_submissions_assign true (scenario true)
                    (Token seed_admin) (VInt 1) (VInt 4)))
            (Token seed_admin) (VInt 1) (VInt 4))
     = res_error 400 "Reviewer already assigned"
  /\ exists k,
       assignments
         (fst (post_submissions_assign true
                 (fst (post_submissions_assign true (scenario true)
                         (Token seed_admin) (VInt 1) (VInt 4)))
                 (Token seed_admin) (VInt 1) (VInt 4)))
         (VInt 1) (VInt 4)
       = [Reviews.mk k (VInt 1) (VInt 4) None VNull].
Proof.
  assert (HS : In 1 (map Submissions.id (submissions (scenario true)))).
  { vm_compute. tauto. }
  assert (HR : In 4 (map Users.id (users (scenario true)))).
  { vm_compute. tauto. }
  split; [reflexivity|]. split; [exact HS|]. split; [exact HR|].
  split; [reflexivity|].
  destruct (assign_twice_conflict true (scenario true) seed_admin 1 4
              eq_refl HS HR) as [H2 [_ [_ Hfresh]]].
  destruct (Hfresh eq_refl) as [H1 Hk].
  split; [exact H1|]. split; [exact H2|exact Hk].
Defined.

(** C4 fails on the code: the user with id 3 calls accept on the
    certificate of the user with id 2; the answer is the 200 success
    answer, not 404. *)
Lemma accept_by_other_user_answers_success :
  let answer (foreign_keys : bool) :=
    snd (patch_documents_accept (scenario foreign_keys)
                                (Token seed_researcher) (VInt 1)) in
  let holds (foreign_keys : bool) :=
    nth_error (documents (scenario foreign_keys)) 0 = Some certificate
    /\ Documents.user_id certificate = VInt 2
    /\ id seed_researcher = 3
    /\ answer foreign_keys = res_success
    /\ code (answer foreign_keys) = 200
    /\ is_not_found (answer foreign_keys) = false in
  holds true /\ holds false.
Proof. vm_compute. repeat split. Qed.

Lemma accept_by_other_user_witness :
  nth_error (documents (scenario true)) 0 = Some certificate
  /\ Documents.user_id certificate <> VInt (id seed_researcher)
  /\ snd (patch_documents_accept (scenario true) (Token seed_researcher)
                                 (VInt 1)) = res_success
  /\ nth_error (documents (fst (patch_documents_accept (scenario true)
                                  (Token seed_researcher) (VInt 1)))) 0
     = Some certificate.
Proof.
  assert (Hother : Documents.user_id certificate <> VInt (id seed_researcher)).
  { discriminate. }
  split; [reflexivity|]. split; [exact Hother|].
  destruct (accept_by_other_user (scenario true) seed_researcher 0%nat
              certificate eq_refl Hother) as [H1 [_ [_ H2]]].
  split; assumption.
Defined.

(** C5 fails on the code: the seeded admin sets paper 1 to "archived",
    a value outside the enumeration; the answer is success and the
    stored status is "archived". *)
Lemma set_status_accepts_unknown_value :
  let out (foreign_keys : bool) :=
    patch_submissions_status (scenario foreign_keys) (Token seed_admin)
                             (VInt 1) (Some "archived") in
  let holds (foreign_keys : bool) :=
    status_in submission_statuses (Some "archived") = false
    /\ map Submissions.status (submissions (scenario foreign_keys))
       = [Some "pending"; Some "pending"]
    /\ snd (out foreign_keys) = res_success
    /\ is_failure (snd (out foreign_keys)) = false
    /\ map Submissions.status (submissions (fst (out foreign_keys)))
       = [Some "archived"; Some "pending"] in
  holds true /\ holds false.
Proof. vm_compute. repeat split. Qed.

Lemma set_status_witness :
  is_admin_role seed_admin = true
  /\ nth_error (submissions (scenario true)) 0 = Some paper_1
  /\ snd (patch_submissions_status (scenario true) (Token seed_admin) (VInt 1)
                                   (Some "archived")) = res_success
  /\ nth_error (submissions (fst (patch_submissions_status (scenario true)
                                    (Token seed_admin) (VInt 1)
                                    (Some "archived")))) 0
     = Some (Submissions.mk 1 (VInt 1) (VInt 2) (Some "A paper")
                            (Some "Its abstract")
                            (Some "1767225600000-paper.pdf") (Some "archived")).
Proof.
  split; [reflexivity|]. split; [reflexivity|].
  destruct (set_status_takes_any_value (scenario true) seed_admin 1
              (Some "archived") 0%nat paper_1 eq_refl eq_refl)
    as [H1 [_ [H2 _]]].
  split; [exact H1|exact H2].
Defined.

(** C6 fails on the code: the seeded admin verifies a document id that
    no row has, and verifies the certificate with the status
    "shredded"; both answers are success, and "shredded" is stored. *)
Lemma verify_accepts_absent_and_unknown :
  let absent (foreign_keys : bool) :=
    patch_documents_verify (scenario foreign_keys) (Token seed_admin)
                           (VInt 99) (Some "verified") in
  let unknown (foreign_keys : bool) :=
    patch_documents_verify (scenario foreign_keys) (Token seed_admin)
                           (VInt 1) (Some "shredded") in
  let holds (foreign_keys : bool) :=
    documents_with (scenario foreign_keys) 99 = []
    /\ snd (absent foreign_keys) = res_success
    /\ is_not_found (snd (absent foreign_keys)) = false
    /\ fst (absent foreign_keys) = scenario foreign_keys
    /\ status_in verification_statuses (Some "shredded") = false
    /\ snd (unknown foreign_keys) = res_success
    /\ is_failure (snd (unknown foreign_keys)) = false
    /\ map Documents.status (documents (fst (unknown foreign_keys)))
       = [Some "shredded"; Some "pending"] in
  holds true /\ holds false.
Proof. vm_compute. repeat split. Qed.

(** C7 fails on the code: the seeded admin uploads a document and
    names no target user.  The new row has no owner (NULL) and type
    [admin_upload], where the claim has the caller (id 1) and
    [user_upload]. *)
Lemma admin_upload_without_target :
  let out (foreign_keys : bool) :=
    post_documents foreign_keys (scenario foreign_keys) (Token seed_admin)
                   (Some "Programme") None VNull
                   (Some "1767225600003-programme.pdf") in
  let holds (foreign_keys : bool) :=
    is_admin_role seed_admin = true
    /\ snd (out foreign_keys) = res_id 3
    /\ documents (fst (out foreign_keys))
       = documents (scenario foreign_keys)
         ++ [Documents.mk 3 VNull (Some "Programme")
                          (Some "1767225600003-programme.pdf")
                          (Some "pending") (Some "admin_upload") (VInt 0)] in
  holds true /\ holds false.
Proof. vm_compute. repeat split. Qed.

(** The user with id 2 accepts the certificate, twice. *)
Lemma accept_is_one_way_witness :
  nth_error (documents (scenario true)) 0 = Some certificate
  /\ Documents.user_id certificate = VInt (id seed_user)
  /\ snd (patch_documents_accept
            (fst (patch_documents_accept (scenario true) (Token seed_user)
                                         (VInt 1)))
            (Token seed_user) (VInt 1)) = res_success
  /\ fst (patch_documents_accept
            (fst (patch_documents_accept (scenario true) (Token seed_user)
                                         (VInt 1)))
            (Token seed_user) (VInt 1))
     = fst (patch_documents_accept (scenario true) (Token seed_user) (VInt 1))
  /\ nth_error
       (documents
          (fst (patch_documents_accept
                  (fst (patch_documents_accept (scenario true)
                          (Token seed_user) (VInt 1)))
                  (Token seed_user) (VInt 1)))) 0
     = Some (Documents.mk 1 (VInt 2) (Some "Certificate")
                          (Some "1767225600001-certificate.pdf")
                          (Some "pending") (Some "admin_upload") (VInt 1)).
Proof.
  split; [reflexivity|]. split; [reflexivity|].
  destruct (accept_is_one_way true plain_hash plain_compare plain_sign
              (scenario true) 0%nat certificate eq_refl) as [Htwice _].
  destruct (Htwice seed_user eq_refl) as [_ [H2 [Hsame [Hrow _]]]].
  split; [exact H2|]. split; [exact Hsame|exact Hrow].
Defined.


(** In the scenario a plain user is refused and the seeded admin
    verifies the certificate. *)
Lemma verify_admin_only_witness :
  snd (patch_documents_verify (scenario true) (Token seed_user) (VInt 1)
                              (Some "verified"))
  = res_error 403 "Forbidden"
  /\ snd (patch_documents_verify (scenario true) (Token seed_admin) (VInt 1)
                                 (Some "verified"))
     = res_success
  /\ nth_error (documents (fst (patch_documents_verify (scenario true)
                                  (Token seed_admin) (VInt 1)
                                  (Some "verified")))) 0
     = Some (Documents.mk 1 (VInt 2) (Some "Certificate")
                          (Some "1767225600001-certificate.pdf")
                          (Some "verified") (Some "admin_upload") (VInt 0)).
Proof.
  destruct (verify_admin_only (scenario true) (Token seed_user) (VInt 1)
              (Some "verified")) as [_ [Hplain _]].
  destruct (Hplain seed_user eq_refl eq_refl) as [H403 _].
  destruct (verify_admin_only (scenario true) (Token seed_admin) (VInt 1)
              (Some "verified")) as [_ [_ Hadmin]].
  destruct (Hadmin seed_admin eq_refl eq_refl) as [Hok Hrows].
  split; [exact H403|]. split; [exact Hok|].
  exact (proj1 (Hrows 0%nat certificate eq_refl)).
Defined.

(** In the scenario the seeded admin uploads a badge for the user
    with id 3, and the user with id 2 uploads a passport. *)
Lemma upload_owner_and_type_witness :
  (exists d,
     documents (fst (post_documents true (scenario true) (Token seed_admin)
                       (Some "Badge") None (VInt 3)
                       (Some "1767225600004-badge.pdf")))
     = documents (scenario true) ++ [d]
     /\ Documents.user_id d = VInt 3
     /\ Documents.type d = Some "admin_upload"
     /\ Documents.status d = Some "pending"
     /\ Documents.accepted d = VInt 0)
  /\ (exists d,
        documents (fst (post_documents true (scenario true) (Token seed_user)
                          (Some "Passport") None (VInt 3) None))
        = documents (scenario true) ++ [d]
        /\ Documents.user_id d = VInt 2
        /\ Documents.type d = Some "user_upload"
        /\ Documents.status d = Some "pending"
        /\ Documents.accepted d = VInt 0).
Proof.
  assert (H3 : In 3 (map Users.id (users (scenario true)))).
  { vm_compute. tauto. }
  assert (H2 : In (id seed_user) (map Users.id (users (scenario true)))).
  { vm_compute. tauto. }
  split.
  - destruct (upload_owner_and_type true (scenario true) seed_admin
                (Some "Badge") None (VInt 3) (Some "1767225600004-badge.pdf"))
      as [Hadmin [_ Hall]].
    destruct (Hadmin eq_refl 3 eq_refl H3) as [d [Hd [Hu Ht]]].
    destruct (Hall d Hd) as [Hs [Ha _]].
    exists d. destruct Hd as [Hd _]. repeat split; assumption.
  - destruct (upload_owner_and_type true (scenario true) seed_user
                (Some "Passport") None (VInt 3) None)
      as [_ [Hplain Hall]].
    destruct (Hplain eq_refl H2) as [d [Hd [Hu Ht]]].
    destruct (Hall d Hd) as [Hs [Ha _]].
    exists d. destruct Hd as [Hd _]. repeat split; assumption.
Defined.


(** ** Further scenarios *)

Lemma initial_emails_unique (foreign_keys : bool) (hashSync : string -> string) :
  unique_emails (users (initial foreign_keys hashSync)) = true.
Proof. destruct foreign_keys; reflexivity. Qed.

(** X23: in every state the server can reach from its first start, no
    two users have the same email. *)
Theorem emails_unique_when_reachable (foreign_keys : bool)
    (hashSync : string -> string) (compareSync : string -> string -> bool)
    (sign : claims -> string) (db : database) :
  reachable foreign_keys hashSync compareSync sign db ->
  unique_emails (users db) = true.
Proof.
  intros [reqs ->]. apply serve_keeps_unique_emails.
  apply initial_emails_unique.
Qed.

(** Rows of the seeded database that the scenarios name. *)
Definition john : Users.row :=
  Users.mk 2 (Some "user@example.com") (Some (plain_hash "user123"))
           (Some "John Doe") (Some "user") (Some "Stanford University")
           (Some "PhD student focusing on Natural Language Processing and Large Language Models.")
           None.

Definition turing : Users.row :=
  Users.mk 4 (Some "reviewer@science.org") (Some (plain_hash "user123"))
           (Some "Prof. Alan Turing") (Some "admin")
           (Some "University of Cambridge")
           (Some "Expert in computational theory and artificial intelligence.")
           None.

Definition ai_conference : Conferences.row :=
  Conferences.mk 1 (Some "International AI Conference 2026")
                 (Some "A premier conference on Artificial Intelligence and Machine Learning.")
                 (Some "2026-06-15") (Some "San Francisco, CA")
                 (Some "upcoming").

(** The scenario after the seeded admin assigned the user with id 4 to
    paper 1. *)
Definition assigned : database :=
  fst (post_submissions_assign true (scenario true) (Token seed_admin)
                               (VInt 1) (VInt 4)).

Lemma unauthenticated_refused_witness :
  bearer_of (PatchDocumentsAccept NoToken (VInt 1)) = Some NoToken
  /\ fst (handle true plain_hash plain_compare plain_sign (scenario true)
                 (PatchDocumentsAccept NoToken (VInt 1))) = scenario true
  /\ code (snd (handle true plain_hash plain_compare plain_sign (scenario true)
                       (PatchDocumentsAccept NoToken (VInt 1)))) = 401.
Proof.
  split; [reflexivity|].
  destruct (unauthenticated_refused true plain_hash plain_compare plain_sign
              (scenario true) (PatchDocumentsAccept NoToken (VInt 1)) NoToken
              eq_refl (or_introl eq_refl)) as [H1 [H2 _]].
  split; [exact H1|exact H2].
Defined.

Lemma admin_routes_forbidden_witness :
  admin_only (PatchSubmissionsStatus (Token seed_user) (VInt 1)
                                     (Some "accepted")) = true
  /\ is_admin_role seed_user = false
  /\ handle true plain_hash plain_compare plain_sign (scenario true)
            (PatchSubmissionsStatus (Token seed_user) (VInt 1)
                                    (Some "accepted"))
     = (scenario true, res_error 403 "Forbidden").
Proof.
  split; [reflexivity|]. split; [reflexivity|].
  apply (admin_routes_forbidden true plain_hash plain_compare plain_sign
           (scenario true) _ seed_user); reflexivity.
Defined.

Lemma register_then_login_witness :
  plain_compare "secret" (plain_hash "secret") = true
  /\ code (snd (post_auth_register plain_hash plain_sign (scenario true)
                  (Some "new@uni.edu") (Some "secret") None))
     = 200
  /\ exists k answer,
       body (snd (post_auth_login plain_compare plain_sign
                    (fst (post_auth_register plain_hash plain_sign
                            (scenario true) (Some "new@uni.edu")
                            (Some "secret") None))
                    (Some "new@uni.edu") (Some "secret")))
       = Some answer
       /\ field "user" answer
          = Some (JObj [("id", JNum k); ("email", JStr "new@uni.edu");
                        ("name", JNull); ("role", JStr "user")]).
Proof.
  assert (H1 : plain_compare "secret" (plain_hash "secret") = true).
  { vm_compute. reflexivity. }
  assert (H2 : code (snd (post_auth_register plain_hash plain_sign
                            (scenario true) (Some "new@uni.edu")
                            (Some "secret") None)) = 200).
  { vm_compute. reflexivity. }
  split; [exact H1|]. split; [exact H2|].
  destruct (register_then_login plain_hash plain_compare plain_sign
              (scenario true) "new@uni.edu" "secret" None H1 H2)
    as [k [_ [_ [_ [_ [answer Hanswer]]]]]].
  exists k, answer. exact Hanswer.
Defined.

Lemma profile_update_witness :
  find (fun v => Users.id v =? id seed_user) (users (scenario true)) = Some john
  /\ get_auth_me
       (fst (patch_profile (scenario true) (Token seed_user) (Some "J. Doe")
                           (Some "Stanford") None None))
       (Token seed_user)
     = patch_profile (scenario true) (Token seed_user) (Some "J. Doe")
                     (Some "Stanford") None None.
Proof.
  assert (H : find (fun v => Users.id v =? id seed_user) (users (scenario true))
              = Some john).
  { vm_compute. reflexivity. }
  split; [exact H|].
  exact (proj1 (proj2 (profile_update_round_trip (scenario true) seed_user
                         (Some "J. Doe") (Some "Stanford") None None john H))).
Defined.

Lemma reviews_listing_witness :
  In (Reviews.mk 1 (VInt 1) (VInt 4) None VNull) (reviews assigned)
  /\ In turing (users assigned)
  /\ get_submissions_reviews assigned (Token seed_user) (VInt 1)
     = get_submissions_reviews assigned (Token seed_admin) (VInt 1).
Proof.
  assert (Hr : In (Reviews.mk 1 (VInt 1) (VInt 4) None VNull) (reviews assigned)).
  { vm_compute. auto. }
  assert (Hu : In turing (users assigned)).
  { vm_compute. auto 6. }
  split; [exact Hr|]. split; [exact Hu|].
  exact (proj1 (reviews_listing_open_to_all assigned seed_user seed_admin 1
                  _ turing Hr eq_refl Hu eq_refl)).
Defined.

Lemma own_listing_hides_reviewers_witness :
  is_admin_role seed_user = false
  /\ exposes "reviewers" (snd (get_submissions assigned (Token seed_user)))
     = false.
Proof.
  split; [reflexivity|].
  exact (proj1 (own_listing_hides_reviewers assigned seed_user eq_refl)).
Defined.

Lemma listed_documents_witness :
  snd (get_documents (scenario true) (Token seed_user))
  = res_json (JArr [JObj (Documents.columns certificate)])
  /\ exists d k, In d (documents (scenario true))
                 /\ Documents.user_id d = VInt k
                 /\ field "id" (JObj (Documents.columns certificate))
                    = Some (JNum (Documents.id d)).
Proof.
  assert (H : snd (get_documents (scenario true) (Token seed_user))
              = res_json (JArr [JObj (Documents.columns certificate)])).
  { vm_compute. reflexivity. }
  split; [exact H|].
  destruct (listed_documents_have_owner (scenario true) seed_user
              (JObj (Documents.columns certificate))
              (ex_intro _ _ (conj H (or_introl eq_refl))))
    as [d [k [H1 [H2 [H3 _]]]]].
  exists d, k. repeat split; assumption.
Defined.

Lemma submission_created_witness :
  is_admin_role seed_user = false
  /\ In ai_conference (conferences (scenario true))
  /\ In (id seed_user) (map Users.id (users (scenario true)))
  /\ exists k, snd (post_submissions true (scenario true) (Token seed_user)
                      (VInt 1) (Some "Third paper") None None) = res_id k.
Proof.
  assert (Hc : In ai_conference (conferences (scenario true))).
  { vm_compute. auto. }
  assert (Hu : In (id seed_user) (map Users.id (users (scenario true)))).
  { vm_compute. auto. }
  split; [reflexivity|]. split; [exact Hc|]. split; [exact Hu|].
  destruct (submission_created_then_listed true (scenario true) seed_user
              ai_conference (Some "Third paper") None None eq_refl Hc Hu)
    as [k [Hk _]].
  exists k. exact Hk.
Defined.

Lemma issued_document_witness :
  is_admin_role seed_admin = true
  /\ is_admin_role seed_user = false
  /\ In (id seed_user) (map Users.id (users (scenario true)))
  /\ exists k, snd (post_documents true (scenario true) (Token seed_admin)
                      (Some "Invitation") None (VInt 2)
                      (Some "1767225600005-invitation.pdf")) = res_id k
               /\ snd (patch_documents_accept
                         (fst (post_documents true (scenario true)
                                 (Token seed_admin) (Some "Invitation") None
                                 (VInt 2)
                                 (Some "1767225600005-invitation.pdf")))
                         (Token seed_user) (VInt k)) = res_success.
Proof.
  assert (Hu : In (id seed_user) (map Users.id (users (scenario true)))).
  { vm_compute. auto. }
  split; [reflexivity|]. split; [reflexivity|]. split; [exact Hu|].
  destruct (issued_document_then_accepted true (scenario true) seed_admin
              seed_user (Some "Invitation") None
              (Some "1767225600005-invitation.pdf") eq_refl eq_refl Hu)
    as [k [Hk [_ [Hok _]]]].
  exists k. split; [exact Hk|exact Hok].
Defined.

Lemma document_axes_witness :
  nth_error (documents (scenario true)) 0 = Some certificate
  /\ exists d',
       nth_error
         (documents
            (fst (handle true plain_hash plain_compare plain_sign
                    (scenario true)
                    (PatchDocumentsVerify (Token seed_admin) (VInt 1)
                                          (Some "verified"))))) 0
       = Some d'.
Proof.
  assert (H : nth_error (documents (scenario true)) 0 = Some certificate).
  { vm_compute. reflexivity. }
  split; [exact H|].
  destruct (document_axes_independent true plain_hash plain_compare plain_sign
              (scenario true)
              (PatchDocumentsVerify (Token seed_admin) (VInt 1)
                                    (Some "verified"))
              0%nat certificate H) as [d' [Hd' _]].
  exists d'. exact Hd'.
Defined.

Lemma startup_idempotent_witness :
  startup true plain_hash empty = Some (initial true plain_hash)
  /\ startup true plain_hash (initial true plain_hash)
     = Some (initial true plain_hash).
Proof.
  assert (H : startup true plain_hash empty = Some (initial true plain_hash)).
  { vm_compute. reflexivity. }
  split; [exact H|].
  exact (startup_idempotent true plain_hash empty _ H).
Defined.

Lemma absent_conference_witness :
  ~ In 99 (map Conferences.id (conferences (scenario false)))
  /\ In (id seed_user) (map Users.id (users (scenario false)))
  /\ forall auth,
       snd (get_submissions
              (fst (post_submissions false (scenario false) (Token seed_user)
                                     (VInt 99) (Some "Lost paper") None None))
              auth)
       = snd (get_submissions (scenario false) auth).
Proof.
  assert (Hc : ~ In 99 (map Conferences.id (conferences (scenario false)))).
  { vm_compute. intuition discriminate. }
  assert (Hu : In (id seed_user) (map Users.id (users (scenario false)))).
  { vm_compute. auto. }
  split; [exact Hc|]. split; [exact Hu|].
  destruct (submission_to_absent_conference false (scenario false) seed_user 99
              (Some "Lost paper") None None Hc Hu) as [_ Hoff].
  exact (proj2 (Hoff eq_refl)).
Defined.

Lemma assignment_then_listed_witness :
  is_admin_role seed_admin = true
  /\ In paper_1 (submissions (scenario true))
  /\ In turing (users (scenario true))
  /\ snd (post_submissions_assign true (scenario true) (Token seed_admin)
                                  (VInt 1) (VInt 4)) = res_success
  /\ exists k rows,
       snd (get_submissions_reviews assigned (Token seed_user) (VInt 1))
       = res_json (JArr rows)
       /\ In (JObj [("id", JNum k); ("submission_id", JNum 1);
                    ("reviewer_id", JNum 4); ("comments", JNull);
                    ("score", JNull);
                    ("reviewer_name", JStr "Prof. Alan Turing")])
             rows.
Proof.
  assert (Hs : In paper_1 (submissions (scenario true))).
  { vm_compute. auto. }
  assert (Hu : In turing (users (scenario true))).
  { vm_compute. auto 6. }
  assert (Hok : snd (post_submissions_assign true (scenario true)
                       (Token seed_admin) (VInt 1) (VInt 4)) = res_success).
  { vm_compute. reflexivity. }
  split; [reflexivity|]. split; [exact Hs|]. split; [exact Hu|].
  split; [exact Hok|].
  exact (assignment_then_listed true (scenario true) seed_admin seed_user
           paper_1 turing eq_refl Hs Hu Hok).
Defined.

Lemma conference_created_witness :
  is_admin_role seed_admin = true
  /\ exists k rows,
       snd (post_conferences (scenario true) (Token seed_admin)
              (Some "Workshop on Proofs") None (Some "2026-03-01") None)
       = res_id k
       /\ snd (get_conferences
                 (fst (post_conferences (scenario true) (Token seed_admin)
                         (Some "Workshop on Proofs") None (Some "2026-03-01")
                         None)))
          = res_json (JArr rows)
       /\ In (Conferences.json
                (Conferences.mk k (Some "Workshop on Proofs") None
                                (Some "2026-03-01") None (Some "upcoming")))
             rows.
Proof.
  split; [reflexivity|].
  destruct (conference_created_then_listed (scenario true) seed_admin
              (Some "Workshop on Proofs") None (Some "2026-03-01") None
              eq_refl) as [k [rows [H1 [_ [H2 H3]]]]].
  exists k, rows. repeat split; assumption.
Defined.

Lemma emails_unique_witness :
  reachable true plain_hash plain_compare plain_sign (scenario true)
  /\ unique_emails (users (scenario true)) = true.
Proof.
  assert (H : reachable true plain_hash plain_compare plain_sign
                        (scenario true)).
  { eexists. reflexivity. }
  split; [exact H|].
  exact (emails_unique_when_reachable true plain_hash plain_compare plain_sign
           (scenario true) H).
Defined.

Lemma unknown_id_witness :
  find (fun v => Users.id v =? 77) (users (scenario true)) = None
  /\ get_auth_me (scenario true)
                 (Token (mkClaims 77 (Some "gone@uni.edu") (Some "user")
                                  (Some "Gone")))
     = (scenario true, mkResponse 200 None).
Proof.
  assert (H : find (fun v => Users.id v =? 77) (users (scenario true)) = None).
  { vm_compute. reflexivity. }
  split; [exact H|].
  exact (proj1 (unknown_id_has_no_profile (scenario true)
                  (mkClaims 77 (Some "gone@uni.edu") (Some "user") (Some "Gone"))
                  None None None None H)).
Defined.

(** C3 fails on the code where a row for the pair is stored before the
    first call.  After a user submitted paper 1 and the admin with id 1
    filed a review of it, that admin assigns the user with id 1 to
    paper 1 twice: both calls answer 400, and the one row of the pair
    carries the review's comments and score.  After the three requests
    of [review_creation_repeats_pair] both calls answer 400 and two
    rows of the pair are stored. *)
Lemma assign_twice_on_stored_pair :
  let twice (foreign_keys : bool) (db : database) :=
    let first := post_submissions_assign foreign_keys db (Token seed_admin)
                                         (VInt 1) (VInt 1) in
    let second := post_submissions_assign foreign_keys (fst first)
                                          (Token seed_admin) (VInt 1) (VInt 1) in
    (snd first, snd second, assignments (fst second) (VInt 1) (VInt 1)) in
  let holds (foreign_keys : bool) :=
    let start := initial foreign_keys plain_hash in
    let serve := serve foreign_keys plain_hash plain_compare plain_sign in
    let submitted :=
      PostSubmissions (Token seed_user) (VInt 1) (Some "A paper")
                      (Some "Its abstract") (Some "1767225600000-paper.pdf") in
    let reviewed :=
      PostReviews (Token seed_admin) (VInt 1) (Some "Sound work") (VInt 8) in
    is_admin_role seed_admin = true
    /\ twice foreign_keys (serve start [submitted; reviewed])
       = (res_error 400 "Reviewer already assigned",
          res_error 400 "Reviewer already assigned",
          [Reviews.mk 1 (VInt 1) (VInt 1) (Some "Sound work") (VInt 8)])
    /\ twice foreign_keys
         (serve start
            [submitted;
             PostSubmissionsAssign (Token seed_admin) (VInt 1) (VInt 1);
             reviewed])
       = (res_error 400 "Reviewer already assigned",
          res_error 400 "Reviewer already assigned",
          [Reviews.mk 1 (VInt 1) (VInt 1) None VNull;
           Reviews.mk 2 (VInt 1) (VInt 1) (Some "Sound work") (VInt 8)]) in
  holds true /\ holds false.
Proof. vm_compute. repeat split. Qed.

(** X1 on a table that holds the pair: the user with id 4 is assigned
    to paper 1 already, the call is refused and the table is as it
    was; and on a pair that is new. *)
Lemma assign_keeps_pairs_distinct_witness :
  reviews assigned = [Reviews.mk 1 (VInt 1) (VInt 4) None VNull]
  /\ pairs_distinct (reviews assigned) = true
  /\ pairs_distinct
       (reviews (fst (post_submissions_assign true assigned (Token seed_admin)
                        (VInt 1) (VInt 4)))) = true
  /\ pairs_distinct
       (reviews (fst (post_submissions_assign true assigned (Token seed_admin)
                        (VInt 1) (VInt 3)))) = true.
Proof.
  assert (H : pairs_distinct (reviews assigned) = true).
  { vm_compute. reflexivity. }
  split; [vm_compute; reflexivity|]. split; [exact H|]. split.
  - apply (assign_keeps_pairs_distinct true assigned (Token seed_admin)
             (VInt 1) (VInt 4)); [discriminate|discriminate|exact H].
  - apply (assign_keeps_pairs_distinct true assigned (Token seed_admin)
             (VInt 1) (VInt 3)); [discriminate|discriminate|exact H].
Defined.

Lemma assign_without_reviewer_witness :
  is_admin_role seed_admin = true
  /\ In 1 (map Submissions.id (submissions (scenario true)))
  /\ snd (post_submissions_assign true
            (fst (post_submissions_assign true (scenario true)
                    (Token seed_admin) (VInt 1) VNull))
            (Token seed_admin) (VInt 1) VNull) = res_success
  /\ exists k1 k2,
       reviews (fst (post_submissions_assign true
                       (fst (post_submissions_assign true (scenario true)
                               (Token seed_admin) (VInt 1) VNull))
                       (Token seed_admin) (VInt 1) VNull))
       = reviews (scenario true)
         ++ [Reviews.mk k1 (VInt 1) VNull None VNull;
             Reviews.mk k2 (VInt 1) VNull None VNull].
Proof.
  assert (HS : In 1 (map Submissions.id (submissions (scenario true)))).
  { vm_compute. auto. }
  split; [reflexivity|]. split; [exact HS|].
  destruct (assign_without_reviewer true (scenario true) seed_admin 1
              eq_refl HS) as [_ [H2 [k1 [k2 [Hrows _]]]]].
  split; [exact H2|]. exists k1, k2. exact Hrows.
Defined.
